(** * QLoRA fine-tuning script ([src/example/qlora.py]): shallow embedding

    The script is a sequential orchestration of library calls around one
    function of its own, [formatting_prompts_func].  This development embeds

    - the Python values the formatting function touches (a dict whose
      entries are strings or lists of strings, [len], subscripting, the
      exceptions these raise);
    - the formatting function itself, loop and f-string included;
    - the configuration constants;
    - [finetune_model] as a program in a trace-and-exception monad whose
      library calls are answered by a [Library] of oracles, so that the
      theorems about control flow hold for every behaviour of the
      libraries.  *)

From Stdlib Require Import String Ascii List Arith ZArith Lia.
From stdpp Require Import base option list strings gmap.
Import ListNotations.

Local Open Scope string_scope.
Local Open Scope list_scope.

(** ** Exceptions *)

(** The exceptions the script can meet: the two raised by subscripting in
    the formatting function, and whatever ordinary exception (a subclass
    of [Exception]) a library call raises.  [SystemExit] and
    [KeyboardInterrupt], which the interpreter does not turn into exit
    status 1, are outside this model. *)
Inductive exn : Type :=
  | KeyError (key : string)
  | IndexError
  | LibraryError (msg : string).

(** A computation that returns a value or raises. *)
Definition Exc (A : Type) : Type := (exn + A)%type.

Definition exc_ret {A} (a : A) : Exc A := inr a.
Definition raise {A} (e : exn) : Exc A := inl e.

Definition exc_bind {A B} (m : Exc A) (k : A -> Exc B) : Exc B :=
  match m with
  | inl e => inl e
  | inr a => k a
  end.

Declare Scope exc_scope.
Delimit Scope exc_scope with exc.
Notation "'let*' x ':=' m 'in' k" := (exc_bind m (fun x => k))
  (at level 10, x name, m at level 100, k at level 200) : exc_scope.

(** ** Python values seen by the formatting function *)

(** [example[...]] is a string (one record) or a list of strings (a column
    of a batch).  A Python string is held as its UTF-8 bytes; [len] and
    subscript count and index its characters (code points), not its
    bytes, as in Python. *)
Inductive value : Type :=
  | VStr (s : string)
  | VList (l : list string).

(** Whether a byte continues a multi-byte UTF-8 character (10xxxxxx). *)
Definition is_continuation (c : ascii) : bool :=
  let n := nat_of_ascii c in
  Nat.leb 128 n && Nat.ltb n 192.

(** Whether a string goes on in the middle of a character. *)
Definition continues (s : string) : bool :=
  match s with
  | EmptyString => false
  | String c _ => is_continuation c
  end.

(** [list(s)]: the characters of a string, in order, each as the
    one-character string of its bytes.  A byte is put in front of the
    character after it when the bytes after it continue a character, and
    is a character of its own otherwise. *)
Fixpoint chars (s : string) : list string :=
  match s with
  | EmptyString => []
  | String c rest =>
      match chars rest with
      | p :: ps =>
          if continues rest then String c p :: ps
          else String c EmptyString :: p :: ps
      | [] => [String c EmptyString]
      end
  end.

(** [len(v)]: the number of characters of a string, of entries of a
    list. *)
Definition py_len (v : value) : nat :=
  match v with
  | VStr s => length (chars s)
  | VList l => length l
  end.

(** [v[i]] for [i >= 0]: a one-character string, or a list element;
    [IndexError] out of range. *)
Definition py_getitem (v : value) (i : nat) : Exc string :=
  match v with
  | VStr s =>
      match chars s !! i with
      | Some x => inr x
      | None => inl IndexError
      end
  | VList l =>
      match l !! i with
      | Some x => inr x
      | None => inl IndexError
      end
  end.

(** [d[k]] on a dict: [KeyError] when the key is absent. *)
Definition dict_getitem (d : gmap string value) (k : string) : Exc value :=
  match d !! k with
  | Some v => inr v
  | None => inl (KeyError k)
  end.

(** ** The formatting function (qlora.py, lines 86-92) *)

Definition LF : string := String "010"%char EmptyString.

Definition PROMPT_HEAD : string :=
  "Below is an instruction that describes a task, paired with an input that provides further context. Write a response that appropriately completes the request."
  +:+ LF +:+ LF +:+ "### Instruction:" +:+ LF.
Definition PROMPT_INPUT : string := LF +:+ LF +:+ "### Input:" +:+ LF.
Definition PROMPT_RESPONSE : string := LF +:+ LF +:+ "### Response:" +:+ LF.

Section Formatting.
Local Open Scope exc_scope.

(** The f-string of line 90: the three subscript expressions are
    evaluated left to right, the first one that raises wins. *)
Definition prompt_text (example : gmap string value) (i : nat) : Exc string :=
  let* col_a := dict_getitem example "instruction" in
  let* a := py_getitem col_a i in
  let* col_b := dict_getitem example "input" in
  let* b := py_getitem col_b i in
  let* col_c := dict_getitem example "output" in
  let* c := py_getitem col_c i in
  exc_ret (PROMPT_HEAD +:+ a +:+ PROMPT_INPUT +:+ b +:+ PROMPT_RESPONSE +:+ c).

(** [for i in range(...): text = ...; output_texts.append(text)] *)
Fixpoint for_range (example : gmap string value) (range : list nat)
    (output_texts : list string) : Exc (list string) :=
  match range with
  | [] => exc_ret output_texts
  | i :: range' =>
      let* text := prompt_text example i in
      for_range example range' (output_texts ++ [text])
  end.

Definition formatting_prompts_func (example : gmap string value)
    : Exc (list string) :=
  let* col := dict_getitem example "instruction" in
  for_range example (seq 0 (py_len col)) [].
End Formatting.

(** ** Dataset records and batches *)

Record Row : Type := mkRow {
  instruction : string;
  input : string;
  output : string;
}.

(** A batch of rows as the trainer hands it to a batched formatting
    function: one list per column. *)
Definition to_batch (rows : list Row) : gmap string value :=
  <["instruction" := VList (instruction <$> rows)]>
  (<["input" := VList (input <$> rows)]>
  (<["output" := VList (output <$> rows)]> ∅)).

(** One record handed over as it is: every field a string. *)
Definition to_record (r : Row) : gmap string value :=
  <["instruction" := VStr (instruction r)]>
  (<["input" := VStr (input r)]>
  (<["output" := VStr (output r)]> ∅)).

(** ** The prompt template as the specification words it *)

(** The template of the specification, placeholders in braces. *)
Definition PROMPT_TEMPLATE : string :=
  "Below is an instruction that describes a task, paired with an input that provides further context. Write a response that appropriately completes the request."
  +:+ LF +:+ LF +:+ "### Instruction:" +:+ LF +:+ "{instruction}"
  +:+ LF +:+ LF +:+ "### Input:" +:+ LF +:+ "{input}"
  +:+ LF +:+ LF +:+ "### Response:" +:+ LF +:+ "{output}".

(** Substitution of the placeholders, in one pass: [field] is [Some name]
    while the scan is inside [{name}]. *)
Fixpoint substitute (env : string -> string) (field : option string)
    (tpl : string) : string :=
  match tpl with
  | EmptyString => EmptyString
  | String c rest =>
      match field with
      | None =>
          if Ascii.eqb c "{" then substitute env (Some EmptyString) rest
          else String c (substitute env None rest)
      | Some name =>
          if Ascii.eqb c "}" then env name +:+ substitute env None rest
          else substitute env (Some (name +:+ String c EmptyString)) rest
      end
  end.

Definition row_field (r : Row) (name : string) : string :=
  if String.eqb name "instruction" then instruction r
  else if String.eqb name "input" then input r
  else if String.eqb name "output" then output r
  else EmptyString.

Definition spec_prompt (r : Row) : string :=
  substitute (row_field r) None PROMPT_TEMPLATE.


(** ** Configuration (qlora.py, lines 12-53) *)

Definition MODEL_ID : string := "facebook/opt-125m".
Definition DATASET_ID : string := "tatsu-lab/alpaca".
Definition OUTPUT_DIR : string := "./phi-2-alpaca-qlora".
Definition MAX_SEQ_LENGTH : nat := 512.  (* declared, never used *)

Inductive dtype : Type := float16 | bfloat16 | float32.

(** A decimal literal [mantissa * 10 ^ exponent], for the hyperparameters
    the script writes as floats and never computes with. *)
Record decimal : Type := mkDecimal { mantissa : Z; exponent : Z }.

Record BitsAndBytesConfig : Type := {
  load_in_4bit : bool;
  bnb_4bit_quant_type : string;
  bnb_4bit_compute_dtype : dtype;
  bnb_4bit_use_double_quant : bool;
}.

Definition bnb_config : BitsAndBytesConfig := {|
  load_in_4bit := true;
  bnb_4bit_quant_type := "nf4";
  bnb_4bit_compute_dtype := float16;
  bnb_4bit_use_double_quant := false;
|}.

Record LoraConfig : Type := {
  r : nat;
  lora_alpha : nat;
  lora_dropout : decimal;
  bias : string;
  task_type : string;
}.

Definition peft_config : LoraConfig := {|
  r := 16;
  lora_alpha := 32;
  lora_dropout := mkDecimal 5 (-2);
  bias := "none";
  task_type := "CAUSAL_LM";
|}.

Record TrainingArguments : Type := {
  output_dir : string;
  num_train_epochs : nat;
  per_device_train_batch_size : nat;
  gradient_accumulation_steps : nat;
  optim : string;
  logging_steps : nat;
  learning_rate : decimal;
  weight_decay : decimal;
  fp16 : bool;
  save_strategy : string;
  report_to : string;
}.

Definition training_arguments : TrainingArguments := {|
  output_dir := OUTPUT_DIR;
  num_train_epochs := 1;
  per_device_train_batch_size := 4;
  gradient_accumulation_steps := 1;
  optim := "paged_adamw_32bit";
  logging_steps := 10;
  learning_rate := mkDecimal 2 (-4);
  weight_decay := mkDecimal 1 (-3);
  fp16 := true;
  save_strategy := "epoch";
  report_to := "none";
|}.

(** ** Handles *)

Record Param : Type := mkParam {
  param_name : string;
  requires_grad : bool;
  quantized : bool;
  is_adapter : bool;
}.

Record ModelConfig : Type := mkModelConfig {
  use_cache : bool;
  pretraining_tp : option nat;
}.

Record Model : Type := mkModel {
  parameters : list Param;
  config : ModelConfig;
  kbit_prepared : bool;
}.

(** [model.config.use_cache = b] *)
Definition set_use_cache (b : bool) (m : Model) : Model :=
  mkModel (parameters m)
          (mkModelConfig b (pretraining_tp (config m)))
          (kbit_prepared m).

(** [model.config.pretraining_tp = n] *)
Definition set_pretraining_tp (n : nat) (m : Model) : Model :=
  mkModel (parameters m)
          (mkModelConfig (use_cache (config m)) (Some n))
          (kbit_prepared m).

Record Tokenizer : Type := mkTokenizer {
  pad_token : option string;
  eos_token : option string;
}.

(** [tokenizer.pad_token = v] *)
Definition set_pad_token (v : option string) (t : Tokenizer) : Tokenizer :=
  mkTokenizer v (eos_token t).

Definition Dataset : Type := list Row.

Record SFTTrainer : Type := mkSFTTrainer {
  trainer_model : Model;
  trainer_train_dataset : Dataset;
  trainer_peft_config : LoraConfig;
  trainer_args : TrainingArguments;
  trainer_formatting_func : gmap string value -> Exc (list string);
  global_step : nat;
}.

(** ** The libraries the script calls *)

(** Each imported function the script calls, as an oracle that returns or
    raises an ordinary exception.  Nothing else is assumed about them. *)
Class Library : Type := {
  AutoModelForCausalLM_from_pretrained :
    string -> BitsAndBytesConfig -> string -> bool -> Exc Model;
  prepare_model_for_kbit_training : Model -> Exc Model;
  get_peft_model : Model -> LoraConfig -> Exc Model;
  AutoTokenizer_from_pretrained : string -> bool -> Exc Tokenizer;
  load_dataset : string -> string -> Exc Dataset;
  SFTTrainer_init :
    Model -> Dataset -> LoraConfig -> TrainingArguments ->
    (gmap string value -> Exc (list string)) -> Exc SFTTrainer;
  SFTTrainer_train : SFTTrainer -> Exc SFTTrainer;
  Model_save_pretrained : Model -> string -> Exc unit;
  Tokenizer_save_pretrained : Tokenizer -> string -> Exc unit;
}.

(** ** Traces *)

(** What the script does that can be seen from outside, in order. *)
Inductive event : Type :=
  | Printed (msg : string)
  | CallModelFromPretrained (model_id : string) (quantization : BitsAndBytesConfig)
  | SetUseCache (b : bool)
  | SetPretrainingTp (n : nat)
  | CallPrepareKbit
  | CallGetPeftModel (adapter : LoraConfig)
  | CallTokenizerFromPretrained (model_id : string)
  | SetPadToken
  | CallLoadDataset (dataset_id split : string)
  | CallSFTTrainer
  | CallTrain
  | CallModelSave (dir : string)
  | CallTokenizerSave (dir : string).

(** A statement of the script: it extends the trace and returns or raises. *)
Definition Run (A : Type) : Type := list event -> Exc A * list event.

Definition run_ret {A} (a : A) : Run A := fun tr => (inr a, tr).

Definition run_bind {A B} (m : Run A) (k : A -> Run B) : Run B :=
  fun tr =>
    match m tr with
    | (inl e, tr') => (inl e, tr')
    | (inr a, tr') => k a tr'
    end.

(** A library call: the call is issued, then its oracle answers. *)
Definition call {A} (ev : event) (answer : Exc A) : Run A :=
  fun tr => (answer, tr ++ [ev]).

(** A statement of the script that cannot raise. *)
Definition emit {A} (ev : event) (a : A) : Run A :=
  fun tr => (inr a, tr ++ [ev]).

Declare Scope run_scope.
Delimit Scope run_scope with run.
Notation "'let*' x ':=' m 'in' k" := (run_bind m (fun x => k))
  (at level 10, x name, m at level 100, k at level 200) : run_scope.
Notation "m ';;' k" := (run_bind m (fun _ => k))
  (at level 100, k at level 200, right associativity) : run_scope.

(** ** The main script (qlora.py, lines 56-112) *)

Section Script.
Context {lib : Library}.
Local Open Scope run_scope.

(** Lines 59-73. *)
Definition model_acquisition : Run Model :=
  let* model :=
    call (CallModelFromPretrained MODEL_ID bnb_config)
         (AutoModelForCausalLM_from_pretrained MODEL_ID bnb_config "auto" true) in
  let* model := emit (SetUseCache false) (set_use_cache false model) in
  let* model := emit (SetPretrainingTp 1) (set_pretraining_tp 1 model) in
  let* model := call CallPrepareKbit (prepare_model_for_kbit_training model) in
  let* model := call (CallGetPeftModel peft_config) (get_peft_model model peft_config) in
  run_ret model.

(** Lines 77-79. *)
Definition tokenizer_acquisition : Run Tokenizer :=
  let* tokenizer :=
    call (CallTokenizerFromPretrained MODEL_ID)
         (AutoTokenizer_from_pretrained MODEL_ID true) in
  let* tokenizer := emit SetPadToken (set_pad_token (eos_token tokenizer) tokenizer) in
  run_ret tokenizer.

(** Line 83. *)
Definition dataset_acquisition : Run Dataset :=
  call (CallLoadDataset DATASET_ID "train[:500]")
       (load_dataset DATASET_ID "train[:500]").

Definition finetune_model : Run unit :=
  emit (Printed ("Loading Model: " +:+ MODEL_ID +:+ "...")) tt ;;
  let* model := model_acquisition in
  emit (Printed "Model ready for PEFT/QLoRA.") tt ;;
  let* tokenizer := tokenizer_acquisition in
  emit (Printed ("Loading Dataset: " +:+ DATASET_ID +:+ "...")) tt ;;
  let* dataset := dataset_acquisition in
  let* trainer :=
    call CallSFTTrainer
         (SFTTrainer_init model dataset peft_config training_arguments
                          formatting_prompts_func) in
  emit (Printed "Starting Fine-Tuning...") tt ;;
  let* trainer := call CallTrain (SFTTrainer_train trainer) in
  call (CallModelSave OUTPUT_DIR)
       (Model_save_pretrained (trainer_model trainer) OUTPUT_DIR) ;;
  call (CallTokenizerSave OUTPUT_DIR)
       (Tokenizer_save_pretrained tokenizer OUTPUT_DIR) ;;
  emit (Printed ("Fine-tuning complete. Model adapters saved to " +:+ OUTPUT_DIR)) tt.

(** [if __name__ == "__main__": finetune_model()]: the exit status of the
    process and what it did.  An ordinary exception nobody catches ends
    the process with status 1. *)
Definition main : nat * list event :=
  match finetune_model [] with
  | (inr _, tr) => (0, tr)
  | (inl _, tr) => (1, tr)
  end.
End Script.

(** ** The libraries as the specification describes them *)

(** Modelled from the spec: the external services are not part of the
    script.  They hold pretrained models (the names of their base
    parameters), tokenizers, and datasets with named splits. *)
Record Hub : Type := mkHub {
  hub_models : gmap string (list string);
  hub_tokenizers : gmap string Tokenizer;
  hub_datasets : gmap string (gmap string (list Row));
}.

(** Modelled from the spec: the model loader is not part of the script.
    Section 4.2 (a): base weights are loaded with quantization applied at
    load time; an unresolvable identifier is a fatal error. *)
Definition spec_load_model (hub : Hub) (model_id : string)
    (q : BitsAndBytesConfig) : Exc Model :=
  match hub_models hub !! model_id with
  | None => raise (LibraryError "unresolvable model identifier")
  | Some names =>
      exc_ret (mkModel
        ((fun n => mkParam n true (load_in_4bit q) false) <$> names)
        (mkModelConfig true None)
        false)
  end.

(** Modelled from the spec: k-bit-training preparation is not part of the
    script.  Section 4.2 (c): an adjustment of the model that leaves its
    parameter set and their quantization alone. *)
Definition spec_prepare_kbit (m : Model) : Exc Model :=
  exc_ret (mkModel (parameters m) (config m) true).

(** Modelled from the spec: the adapter library is not part of the
    script.  Section 4.2 (d): the attention projection layers receive an
    adapter. *)
Definition target_modules : list string := ["q_proj"; "v_proj"].

(** Modelled from the spec: substring test on parameter names, for the
    choice of the layers that receive an adapter. *)
Definition contains (needle hay : string) : bool :=
  match String.index 0 needle hay with
  | Some _ => true
  | None => false
  end.

(** Modelled from the spec: a parameter of a projection layer. *)
Definition is_target (p : Param) : bool :=
  existsb (fun t => contains t (param_name p)) target_modules.

(** Modelled from the spec: freezing a parameter, section 4.2 (d). *)
Definition freeze (p : Param) : Param :=
  mkParam (param_name p) false (quantized p) (is_adapter p).

(** Modelled from the spec: the two low-rank factors injected beside a
    projection layer; they are trainable and not quantized. *)
Definition lora_pair (p : Param) : list Param :=
  [ mkParam (param_name p +:+ ".lora_A") true false true;
    mkParam (param_name p +:+ ".lora_B") true false true ].

(** Modelled from the spec: adapter injection is not part of the script.
    Section 4.2 (d): low-rank adapters are injected into the projection
    layers and every non-adapter parameter is frozen. *)
Definition spec_get_peft_model (m : Model) (cfg : LoraConfig) : Exc Model :=
  exc_ret (mkModel
    ((freeze <$> parameters m)
       ++ concat (lora_pair <$> filter (fun p => is_target p = true) (parameters m)))
    (config m)
    (kbit_prepared m)).

(** Modelled from the spec: the tokenizer loader is not part of the
    script.  Section 4.3: the tokenizer paired with the model identifier;
    an unresolvable identifier is a fatal error. *)
Definition spec_load_tokenizer (hub : Hub) (model_id : string) : Exc Tokenizer :=
  match hub_tokenizers hub !! model_id with
  | None => raise (LibraryError "unresolvable tokenizer identifier")
  | Some t => exc_ret t
  end.

(** Modelled from the spec: a decimal digit of a split expression. *)
Definition digit_of (c : ascii) : option nat :=
  let n := nat_of_ascii c in
  if Nat.leb 48 n && Nat.leb n 57 then Some (n - 48) else None.

(** Modelled from the spec: the decimal bound of a split expression. *)
Fixpoint parse_nat (acc : nat) (s : string) : option nat :=
  match s with
  | EmptyString => Some acc
  | String c rest =>
      match digit_of c with
      | Some d => parse_nat (10 * acc + d) rest
      | None => None
      end
  end.

(** Modelled from the spec: the split expressions of the dataset loader.
    A split expression is [name] or [name[:N]], the first N records of
    the split (section 4.4); the result is the split name and the bound. *)
Definition parse_split (s : string) : option (string * option nat) :=
  match String.index 0 "[" s with
  | None => Some (s, None)
  | Some i =>
      let name := String.substring 0 i s in
      let rest := String.substring i (String.length s - i) s in
      let inner := String.substring 2 (String.length rest - 3) rest in
      if String.eqb rest ("[:" +:+ inner +:+ "]") then
        match inner with
        | EmptyString => None
        | _ => match parse_nat 0 inner with
               | Some n => Some (name, Some n)
               | None => None
               end
        end
      else None
  end.

(** Modelled from the spec: the dataset loader is not part of the script.
    Section 4.4: the first N records of a named split of a named
    dataset, all of the split when it is smaller; an unresolvable
    dataset or split identifier is a fatal error. *)
Definition spec_load_dataset (hub : Hub) (dataset_id split : string)
    : Exc Dataset :=
  match hub_datasets hub !! dataset_id with
  | None => raise (LibraryError "unresolvable dataset identifier")
  | Some splits =>
      match parse_split split with
      | None => raise (LibraryError "malformed split expression")
      | Some (name, bound) =>
          match splits !! name with
          | None => raise (LibraryError "unresolvable split identifier")
          | Some rows =>
              exc_ret (match bound with
                       | Some n => take n rows
                       | None => rows
                       end)
          end
      end
  end.

(** Modelled from the spec: one pass of the training loop over the
    formatted examples (section 4.5).  [in_batch] examples are waiting
    for their batch to fill, [pending] batches have been accumulated
    since the last optimizer update, [steps] updates have been made. *)
Fixpoint epoch_loop (batch_size accumulation : nat) (examples : list string)
    (in_batch pending steps : nat) : nat * nat * nat :=
  match examples with
  | [] => (in_batch, pending, steps)
  | _ :: examples' =>
      if Nat.eqb (S in_batch) batch_size then
        if Nat.eqb (S pending) accumulation
        then epoch_loop batch_size accumulation examples' 0 0 (S steps)
        else epoch_loop batch_size accumulation examples' 0 (S pending) steps
      else epoch_loop batch_size accumulation examples' (S in_batch) pending steps
  end.

(** Modelled from the spec: one epoch.  The examples left over at the
    end of a pass form a last, shorter batch. *)
Definition epoch (batch_size accumulation : nat) (examples : list string)
    (steps : nat) : nat :=
  match epoch_loop batch_size accumulation examples 0 0 steps with
  | (0, _, steps') => steps'
  | (S _, pending, steps') =>
      if Nat.eqb (S pending) accumulation then S steps' else steps'
  end.

(** Modelled from the spec: [n] passes over the dataset. *)
Fixpoint epochs (n batch_size accumulation : nat) (examples : list string)
    (steps : nat) : nat :=
  match n with
  | 0 => steps
  | S n' =>
      epochs n' batch_size accumulation examples
             (epoch batch_size accumulation examples steps)
  end.

(** Modelled from the spec: the training loop is not part of the script.
    Section 4.5: the loop iterates the dataset for [num_train_epochs]
    passes, batches [per_device_train_batch_size] formatted examples
    per step, and accumulates gradients over
    [gradient_accumulation_steps] steps before each optimizer update.
    One replica, the whole slice. *)
Definition spec_train (t : SFTTrainer) : Exc SFTTrainer :=
  exc_bind (trainer_formatting_func t (to_batch (trainer_train_dataset t)))
    (fun examples =>
       exc_ret (mkSFTTrainer
         (trainer_model t) (trainer_train_dataset t)
         (trainer_peft_config t) (trainer_args t)
         (trainer_formatting_func t)
         (epochs (num_train_epochs (trainer_args t))
                 (per_device_train_batch_size (trainer_args t))
                 (gradient_accumulation_steps (trainer_args t))
                 examples (global_step t)))).

(** Modelled from the spec: the libraries over a hub.  The trainer starts
    at step 0; saving returns. *)
Definition spec_library (hub : Hub) : Library := {|
  AutoModelForCausalLM_from_pretrained := fun id q _ _ => spec_load_model hub id q;
  prepare_model_for_kbit_training := spec_prepare_kbit;
  get_peft_model := spec_get_peft_model;
  AutoTokenizer_from_pretrained := fun id _ => spec_load_tokenizer hub id;
  load_dataset := spec_load_dataset hub;
  SFTTrainer_init := fun m ds cfg args f => exc_ret (mkSFTTrainer m ds cfg args f 0);
  SFTTrainer_train := spec_train;
  Model_save_pretrained := fun _ _ => exc_ret tt;
  Tokenizer_save_pretrained := fun _ _ => exc_ret tt;
|}.

(** The record of the end-to-end scenario of the specification. *)
Definition say_hi_row : Row := mkRow "Say hi" "" "Hi there".

(** A hub that resolves the script's identifiers; its train split holds
    [split_size] records. *)
Definition demo_hub (split_size : nat) : Hub := {|
  hub_models :=
    {[ MODEL_ID := ["decoder.layers.0.self_attn.q_proj.weight";
                    "decoder.layers.0.self_attn.v_proj.weight";
                    "decoder.layers.0.final_layer_norm.weight"] ]};
  hub_tokenizers := {[ MODEL_ID := mkTokenizer (Some "<pad>") (Some "</s>") ]};
  hub_datasets := {[ DATASET_ID := {[ "train" := repeat say_hi_row split_size ]} ]};
|}.


(** ** Reading traces *)

Definition is_save (ev : event) : bool :=
  match ev with
  | CallModelSave _ | CallTokenizerSave _ => true
  | _ => false
  end.

Definition is_load_dataset (ev : event) : bool :=
  match ev with
  | CallLoadDataset _ _ => true
  | _ => false
  end.

(** What model acquisition does when every call returns. *)
Definition acquisition_trace : list event :=
  [ CallModelFromPretrained MODEL_ID bnb_config;
    SetUseCache false;
    SetPretrainingTp 1;
    CallPrepareKbit;
    CallGetPeftModel peft_config ].

(** What the whole script does when every call returns. *)
Definition full_trace : list event :=
  [ Printed "Loading Model: facebook/opt-125m..." ]
  ++ acquisition_trace
  ++ [ Printed "Model ready for PEFT/QLoRA.";
       CallTokenizerFromPretrained MODEL_ID;
       SetPadToken;
       Printed "Loading Dataset: tatsu-lab/alpaca...";
       CallLoadDataset DATASET_ID "train[:500]";
       CallSFTTrainer;
       Printed "Starting Fine-Tuning...";
       CallTrain;
       CallModelSave OUTPUT_DIR;
       CallTokenizerSave OUTPUT_DIR;
       Printed "Fine-tuning complete. Model adapters saved to ./phi-2-alpaca-qlora" ].

(** The trace up to the dataset fetch. *)
Definition dataset_fetch_trace : list event :=
  [ Printed "Loading Model: facebook/opt-125m..." ]
  ++ acquisition_trace
  ++ [ Printed "Model ready for PEFT/QLoRA.";
       CallTokenizerFromPretrained MODEL_ID;
       SetPadToken;
       Printed "Loading Dataset: tatsu-lab/alpaca...";
       CallLoadDataset DATASET_ID "train[:500]" ].

Definition is_train (ev : event) : bool :=
  match ev with
  | CallTrain => true
  | _ => false
  end.

Definition saves_to (dir : string) (ev : event) : bool :=
  match ev with
  | CallModelSave d | CallTokenizerSave d => String.eqb d dir
  | _ => false
  end.

(** Every save of the trace goes to [dir] and comes after the call of the
    training loop; [trained] tells whether that call has been seen. *)
Fixpoint saves_follow_train (dir : string) (trained : bool)
    (tr : list event) : bool :=
  match tr with
  | [] => true
  | ev :: tr' =>
      if is_save ev
      then trained && saves_to dir ev && saves_follow_train dir trained tr'
      else saves_follow_train dir (trained || is_train ev) tr'
  end.

(** A hub that resolves the model and its tokenizer and no dataset. *)
Definition offline_hub : Hub := {|
  hub_models := {[ MODEL_ID := ["decoder.layers.0.self_attn.q_proj.weight"] ]};
  hub_tokenizers := {[ MODEL_ID := mkTokenizer None (Some "</s>") ]};
  hub_datasets := ∅;
|}.

(** Only adapter parameters are trainable; a base parameter is frozen and
    quantized. *)
Definition adapter_only_trainable (p : Param) : Prop :=
  requires_grad p = is_adapter p
  /\ (is_adapter p = false -> quantized p = true).

(** ** Proof steps for the script *)

Ltac unfold_script :=
  unfold main, finetune_model, model_acquisition, tokenizer_acquisition,
    dataset_acquisition, run_bind, run_ret, call, emit; simpl.

(** Case analysis on the answer of the next library call. *)
Ltac next_call :=
  match goal with
  | |- context [match ?answer with inl _ => _ | inr _ => _ end] =>
      let e := fresh "e" in
      let v := fresh "v" in
      destruct answer as [e | v] eqn:?; simpl
  end.

(** ** Python values as sequences *)

(** What [len] counts and subscripting reads: the entries of a list, the
    characters of a string. *)
Definition items (v : value) : list string :=
  match v with
  | VStr s => chars s
  | VList l => l
  end.

(** A string turned into the list of its characters; a list is left
    alone. *)
Definition explode (v : value) : value := VList (items v).
Arguments explode : simpl never.

(** The text the f-string of line 90 builds from three entries. *)
Definition prompt_of (a b c : string) : string :=
  PROMPT_HEAD +:+ a +:+ PROMPT_INPUT +:+ b +:+ PROMPT_RESPONSE +:+ c.

(** The length of the fixed part of a training text. *)
Definition PROMPT_OVERHEAD : nat :=
  String.length PROMPT_HEAD + String.length PROMPT_INPUT
  + String.length PROMPT_RESPONSE.

(** ** The inference example (qlora.py, line 139) *)

(** The [prompt] of the post-training example the script carries in its
    trailing string. *)
Definition prompt : string :=
  "Below is an instruction that describes a task. Write a response that appropriately completes the request."
  +:+ LF +:+ LF +:+ "### Instruction:" +:+ LF
  +:+ "Explain the concept of quantum entanglement."
  +:+ LF +:+ LF +:+ "### Response:" +:+ LF.

(** ** Runs that reach the saves *)

(** Every call up to and including the training loop has returned:
    [tokenizer] is what tokenizer acquisition produced and [trained] what
    the training loop returned. *)
Definition trained_run (lib : Library) (tokenizer : Tokenizer)
    (trained : SFTTrainer) : Prop :=
  exists model dataset trainer,
    fst (@model_acquisition lib []) = inr model
    /\ fst (@tokenizer_acquisition lib []) = inr tokenizer
    /\ fst (@dataset_acquisition lib []) = inr dataset
    /\ @SFTTrainer_init lib model dataset peft_config training_arguments
                        formatting_prompts_func = inr trainer
    /\ @SFTTrainer_train lib trainer = inr trained.

(** The last message of the script. *)
Definition completion_message : event :=
  Printed "Fine-tuning complete. Model adapters saved to ./phi-2-alpaca-qlora".

(** The libraries over a hub whose disk fills up after the adapter has
    been written: the tokenizer save raises. *)
Definition full_disk_library (hub : Hub) : Library := {|
  AutoModelForCausalLM_from_pretrained := fun id q _ _ => spec_load_model hub id q;
  prepare_model_for_kbit_training := spec_prepare_kbit;
  get_peft_model := spec_get_peft_model;
  AutoTokenizer_from_pretrained := fun id _ => spec_load_tokenizer hub id;
  load_dataset := spec_load_dataset hub;
  SFTTrainer_init := fun m ds cfg args f => exc_ret (mkSFTTrainer m ds cfg args f 0);
  SFTTrainer_train := spec_train;
  Model_save_pretrained := fun _ _ => exc_ret tt;
  Tokenizer_save_pretrained := fun _ _ => raise (LibraryError "no space left on device");
|}.

(** The libraries over a hub whose accelerator runs out of memory in the
    training loop. *)
Definition out_of_memory_library (hub : Hub) : Library := {|
  AutoModelForCausalLM_from_pretrained := fun id q _ _ => spec_load_model hub id q;
  prepare_model_for_kbit_training := spec_prepare_kbit;
  get_peft_model := spec_get_peft_model;
  AutoTokenizer_from_pretrained := fun id _ => spec_load_tokenizer hub id;
  load_dataset := spec_load_dataset hub;
  SFTTrainer_init := fun m ds cfg args f => exc_ret (mkSFTTrainer m ds cfg args f 0);
  SFTTrainer_train := fun _ => raise (LibraryError "CUDA out of memory");
  Model_save_pretrained := fun _ _ => exc_ret tt;
  Tokenizer_save_pretrained := fun _ _ => exc_ret tt;
|}.

(** A hub that resolves nothing. *)
Definition empty_hub : Hub := {|
  hub_models := ∅;
  hub_tokenizers := ∅;
  hub_datasets := ∅;
|}.

(** A hub that resolves the model and not its tokenizer. *)
Definition model_only_hub : Hub := {|
  hub_models := {[ MODEL_ID := ["decoder.layers.0.self_attn.q_proj.weight"] ]};
  hub_tokenizers := ∅;
  hub_datasets := ∅;
|}.

(** The trainer the demonstration hub ends up with. *)
Definition demo_trained (lib : Library) : SFTTrainer :=
  match fst (@model_acquisition lib []) with
  | inr m => mkSFTTrainer m (repeat say_hi_row 8) peft_config
               training_arguments formatting_prompts_func 2
  | inl _ => mkSFTTrainer (mkModel [] (mkModelConfig true None) false)
               [] peft_config training_arguments formatting_prompts_func 0
  end.

(** Case analysis of a run against what [trained_run] and the two saves
    say about the answers of the libraries. *)
Ltac run_cases :=
  unfold trained_run; unfold_script; repeat next_call;
  intros (model & dataset & trainer & Hm & Ht & Hd & Hinit & Htrain);
  simplify_eq.

(** Two batches of two entries: one with a longer output list, one with
    its output list an entry short. *)
Definition long_output_batch : gmap string value :=
  <["instruction" := VList ["p"; "q"]]>
  (<["input" := VList ["x"; "y"]]>
  (<["output" := VList ["u"; "v"; "w"]]> ∅)).

Definition short_output_batch : gmap string value :=
  <["instruction" := VList ["p"; "q"]]>
  (<["input" := VList ["x"; "y"]]>
  (<["output" := VList ["u"]]> ∅)).

(** ** What the trainer writes while it trains *)

(** Modelled from the spec: checkpointing is the trainer's, not the
    script's.  Section 4.5: model state is snapshotted to the output
    directory at a configurable cadence.  A snapshot holds the directory
    it goes to, the epoch that has just ended and the parameters of the
    model. *)
Record Snapshot : Type := mkSnapshot {
  snapshot_dir : string;
  snapshot_epoch : nat;
  snapshot_parameters : list Param;
}.

(** Modelled from the spec: the snapshots a training loop writes before
    it returns.  Section 4.5: with the save strategy "epoch", one
    snapshot of the model state at the end of every epoch, into the
    output directory of the training arguments; other cadences are not
    modelled. *)
Definition spec_checkpoints (t : SFTTrainer) : list Snapshot :=
  if String.eqb (save_strategy (trainer_args t)) "epoch"
  then (fun k => mkSnapshot (output_dir (trainer_args t)) (S k)
                            (parameters (trainer_model t)))
         <$> seq 0 (num_train_epochs (trainer_args t))
  else [].

(** What happens in a run, on the console and on the disk: the steps of
    the script, and the snapshots the trainer writes inside its training
    call. *)
Inductive moment : Type :=
  | Step (ev : event)
  | Checkpoint (snapshot : Snapshot).

(** Modelled from the spec: the snapshots are written while the training
    call runs, that is after the script has issued the call and before
    its next step. *)
Definition timeline (snapshots : list Snapshot) (tr : list event)
    : list moment :=
  flat_map (fun ev => Step ev :: (if is_train ev
                                  then Checkpoint <$> snapshots
                                  else [])) tr.

Definition is_save_step (m : moment) : bool :=
  match m with
  | Step ev => is_save ev
  | Checkpoint _ => false
  end.

(** * Properties *)

(** ** The exception monad *)

Lemma exc_bind_inr {A B} (m : Exc A) (k : A -> Exc B) (a : A) :
  m = inr a -> exc_bind m k = k a.
Proof. intros ->. reflexivity. Qed.

Lemma exc_bind_inl {A B} (m : Exc A) (k : A -> Exc B) (e : exn) :
  m = inl e -> exc_bind m k = inl e.
Proof. intros ->. reflexivity. Qed.

(** ** The formatting function *)

Lemma append_empty_r (s : string) : s +:+ EmptyString = s.
Proof.
  induction s as [|c s IH]; [reflexivity|].
  change (String c (s +:+ EmptyString) = String c s). f_equal. exact IH.
Qed.

(** The template with its placeholders filled is the concatenation the
    f-string builds. *)
Lemma spec_prompt_eq (row : Row) :
  spec_prompt row =
  PROMPT_HEAD +:+ instruction row +:+ PROMPT_INPUT +:+ input row
              +:+ PROMPT_RESPONSE +:+ output row.
Proof.
  destruct row as [a b c]. simpl.
  transitivity (PROMPT_HEAD +:+ a +:+ PROMPT_INPUT +:+ b
                            +:+ PROMPT_RESPONSE +:+ (c +:+ EmptyString)).
  - reflexivity.
  - rewrite append_empty_r. reflexivity.
Qed.

Section Columns.
Variable example : gmap string value.
Variables col_a col_b col_c : list string.
Hypothesis Ha : example !! "instruction" = Some (VList col_a).
Hypothesis Hb : example !! "input" = Some (VList col_b).
Hypothesis Hc : example !! "output" = Some (VList col_c).

Lemma prompt_text_columns (i : nat) (a b c : string) :
  col_a !! i = Some a -> col_b !! i = Some b -> col_c !! i = Some c ->
  prompt_text example i =
  inr (PROMPT_HEAD +:+ a +:+ PROMPT_INPUT +:+ b +:+ PROMPT_RESPONSE +:+ c).
Proof.
  intros Hia Hib Hic. unfold prompt_text, dict_getitem.
  rewrite Ha, Hb, Hc. simpl. rewrite Hia. simpl. rewrite Hib. simpl.
  rewrite Hic. reflexivity.
Qed.

Lemma prompt_text_short (i : nat) :
  i < length col_a -> length col_b <= i \/ length col_c <= i ->
  prompt_text example i = inl IndexError.
Proof.
  intros Hi Hshort. unfold prompt_text, dict_getitem.
  rewrite Ha, Hb, Hc. simpl.
  destruct (lookup_lt_is_Some_2 col_a i Hi) as [a ->]. simpl.
  destruct (col_b !! i) as [b|] eqn:Eb; simpl; [|reflexivity].
  destruct (col_c !! i) as [c|] eqn:Ec; simpl; [|reflexivity].
  apply lookup_lt_Some in Eb, Ec. lia.
Qed.

(** The loop over a range that stays inside the three columns appends
    one text per index. *)
Lemma for_range_columns (n k : nat) (acc : list string) :
  k + n <= length col_a -> k + n <= length col_b -> k + n <= length col_c ->
  exists texts,
    for_range example (seq k n) acc = inr (acc ++ texts) /\ length texts = n.
Proof.
  revert k acc. induction n as [|n IH]; intros k acc Hla Hlb Hlc.
  - exists []. simpl. rewrite app_nil_r. split; reflexivity.
  - destruct (lookup_lt_is_Some_2 col_a k) as [a Ea]; [lia|].
    destruct (lookup_lt_is_Some_2 col_b k) as [b Eb]; [lia|].
    destruct (lookup_lt_is_Some_2 col_c k) as [c Ec]; [lia|].
    simpl. rewrite (prompt_text_columns k a b c Ea Eb Ec). simpl.
    destruct (IH (S k) (acc ++ [PROMPT_HEAD +:+ a +:+ PROMPT_INPUT +:+ b
                                 +:+ PROMPT_RESPONSE +:+ c]))
      as (texts & Hrun & Hlen); [lia..|].
    eexists (_ :: texts). rewrite Hrun, <- app_assoc. simpl.
    split; [reflexivity | lia].
Qed.

(** The loop raises as soon as an index leaves the input or the output
    column. *)
Lemma for_range_short (n k : nat) (acc : list string) :
  0 < n -> k + n <= length col_a ->
  length col_b < k + n \/ length col_c < k + n ->
  for_range example (seq k n) acc = inl IndexError.
Proof.
  revert k acc. induction n as [|n IH]; intros k acc Hpos Hla Hshort; [lia|].
  simpl.
  destruct (decide (length col_b <= k \/ length col_c <= k)) as [Hk|Hk].
  - rewrite prompt_text_short; [reflexivity | lia | exact Hk].
  - destruct (lookup_lt_is_Some_2 col_a k) as [a Ea]; [lia|].
    destruct (lookup_lt_is_Some_2 col_b k) as [b Eb]; [lia|].
    destruct (lookup_lt_is_Some_2 col_c k) as [c Ec]; [lia|].
    rewrite (prompt_text_columns k a b c Ea Eb Ec). simpl.
    apply IH; lia.
Qed.
End Columns.

(** The loop over the rows of a batch: text [i] is the template filled
    with row [i]. *)
Lemma for_range_rows (example : gmap string value) (rows : list Row) :
  example !! "instruction" = Some (VList (instruction <$> rows)) ->
  example !! "input" = Some (VList (input <$> rows)) ->
  example !! "output" = Some (VList (output <$> rows)) ->
  forall (n k : nat) (acc : list string),
    k + n <= length rows ->
    for_range example (seq k n) acc
    = inr (acc ++ (spec_prompt <$> take n (drop k rows))).
Proof.
  intros Ha Hb Hc. induction n as [|n IH]; intros k acc Hlen.
  - simpl. rewrite app_nil_r. reflexivity.
  - destruct (lookup_lt_is_Some_2 rows k) as [row Erow]; [lia|].
    simpl.
    rewrite (prompt_text_columns example _ _ _ Ha Hb Hc k
               (instruction row) (input row) (output row));
      [| rewrite list_lookup_fmap, Erow; reflexivity ..].
    simpl. rewrite IH by lia.
    rewrite (drop_S rows row k Erow). simpl.
    rewrite <- app_assoc, spec_prompt_eq. reflexivity.
Qed.

(** On any mapping that holds the three columns of [rows], whatever else
    it holds, the function returns the filled templates of the rows. *)
Lemma formatting_rows (example : gmap string value) (rows : list Row) :
  example !! "instruction" = Some (VList (instruction <$> rows)) ->
  example !! "input" = Some (VList (input <$> rows)) ->
  example !! "output" = Some (VList (output <$> rows)) ->
  formatting_prompts_func example = inr (spec_prompt <$> rows).
Proof.
  intros Ha Hb Hc. unfold formatting_prompts_func, dict_getitem.
  rewrite Ha. simpl. rewrite length_fmap.
  rewrite (for_range_rows example rows Ha Hb Hc) by lia.
  rewrite drop_0, firstn_all. reflexivity.
Qed.

Lemma to_batch_instruction (rows : list Row) :
  to_batch rows !! "instruction" = Some (VList (instruction <$> rows)).
Proof. reflexivity. Qed.

Lemma to_batch_input (rows : list Row) :
  to_batch rows !! "input" = Some (VList (input <$> rows)).
Proof. reflexivity. Qed.

Lemma to_batch_output (rows : list Row) :
  to_batch rows !! "output" = Some (VList (output <$> rows)).
Proof. reflexivity. Qed.

Lemma formatting_batch (rows : list Row) :
  formatting_prompts_func (to_batch rows) = inr (spec_prompt <$> rows).
Proof.
  apply formatting_rows;
    [apply to_batch_instruction | apply to_batch_input | apply to_batch_output].
Qed.

Lemma append_assoc (s1 s2 s3 : string) :
  (s1 +:+ s2) +:+ s3 = s1 +:+ (s2 +:+ s3).
Proof.
  induction s1 as [|c s1 IH]; [reflexivity|].
  change (String c ((s1 +:+ s2) +:+ s3) = String c (s1 +:+ (s2 +:+ s3))).
  f_equal. exact IH.
Qed.

(** The record of the end-to-end scenario, spelled out. *)
Example say_hi_text :
  formatting_prompts_func (to_batch [say_hi_row])
  = inr [ "Below is an instruction that describes a task, paired with an input that provides further context. Write a response that appropriately completes the request."
          +:+ LF +:+ LF +:+ "### Instruction:" +:+ LF +:+ "Say hi"
          +:+ LF +:+ LF +:+ "### Input:" +:+ LF
          +:+ LF +:+ LF +:+ "### Response:" +:+ LF +:+ "Hi there" ].
Proof. vm_compute. reflexivity. Qed.

(** C1. For every record of a batch the text the formatting function
    produces is the fixed template with the record's instruction, input and
    output substituted; with an empty input the segment between
    instruction and response is still the literal Input header. *)
Theorem formatting_matches_template (rows : list Row) :
  formatting_prompts_func (to_batch rows)
  = inr (spec_prompt <$> rows)
  /\ (forall a c : string,
        spec_prompt (mkRow a EmptyString c)
        = PROMPT_HEAD +:+ a +:+ (LF +:+ LF +:+ "### Input:" +:+ LF)
                      +:+ (LF +:+ LF +:+ "### Response:" +:+ LF) +:+ c).
Proof.
  split.
  - exact (formatting_batch rows).
  - intros a c. exact (spec_prompt_eq (mkRow a EmptyString c)).
Qed.

(** C2, as the code has it.  The function maps a batch to a list of
    texts: on any mapping whose three columns hold the fields of [rows],
    whatever other keys it carries, it returns exactly one text per row,
    and text [i] is a function of the three fields of row [i] alone. *)
Theorem formatting_pure_on_batches (example : gmap string value)
    (rows : list Row) :
  example !! "instruction" = Some (VList (instruction <$> rows)) ->
  example !! "input" = Some (VList (input <$> rows)) ->
  example !! "output" = Some (VList (output <$> rows)) ->
  exists texts,
    formatting_prompts_func example = inr texts
    /\ length texts = length rows
    /\ forall i, texts !! i = spec_prompt <$> rows !! i.
Proof.
  intros Ha Hb Hc. exists (spec_prompt <$> rows).
  split; [apply formatting_rows; assumption|].
  split; [apply length_fmap|].
  intros i. apply list_lookup_fmap.
Qed.

Lemma formatting_pure_on_batches_witness :
  exists texts,
    formatting_prompts_func
      (<["id" := VList ["7"; "8"]]> (to_batch [say_hi_row; mkRow "a" "b" "c"]))
    = inr texts
    /\ length texts = 2
    /\ forall i, texts !! i
                 = spec_prompt <$> [say_hi_row; mkRow "a" "b" "c"] !! i.
Proof.
  apply (formatting_pure_on_batches
           (<["id" := VList ["7"; "8"]]> (to_batch [say_hi_row; mkRow "a" "b" "c"]))
           [say_hi_row; mkRow "a" "b" "c"]);
    vm_compute; reflexivity.
Defined.

(** C2, as stated, fails: handed one record whose fields are the texts
    themselves, the function does not return one text.  On the record of
    the end-to-end scenario it subscripts the empty input and raises. *)
Lemma formatting_single_record_fails :
  formatting_prompts_func (to_record say_hi_row) = inl IndexError
  /\ ~ (exists text, formatting_prompts_func (to_record say_hi_row) = inr [text]).
Proof.
  assert (H : formatting_prompts_func (to_record say_hi_row) = inl IndexError)
    by (vm_compute; reflexivity).
  split; [exact H|].
  intros [text Htext]. rewrite H in Htext. discriminate.
Qed.

(** A record of two-character fields comes back as two texts, one per
    character of the instruction. *)
Example formatting_single_record_characters :
  exc_bind (formatting_prompts_func (to_record (mkRow "ab" "cd" "ef")))
           (fun texts => exc_ret (length texts)) = inr 2.
Proof. vm_compute. reflexivity. Qed.

(** C7. Two records that agree on instruction and input give texts with
    one common prefix that ends with the Response marker, each followed
    by the record's own output and nothing else. *)
Theorem response_prefix_shared (rows1 rows2 : list Row) (i : nat)
    (row1 row2 : Row) :
  rows1 !! i = Some row1 -> rows2 !! i = Some row2 ->
  instruction row1 = instruction row2 -> input row1 = input row2 ->
  exists (before : string) (texts1 texts2 : list string),
    formatting_prompts_func (to_batch rows1) = inr texts1
    /\ formatting_prompts_func (to_batch rows2) = inr texts2
    /\ texts1 !! i = Some ((before +:+ "### Response:" +:+ LF) +:+ output row1)
    /\ texts2 !! i = Some ((before +:+ "### Response:" +:+ LF) +:+ output row2).
Proof.
  intros H1 H2 Hinstr Hinput.
  exists (PROMPT_HEAD +:+ instruction row1 +:+ PROMPT_INPUT +:+ input row1
                      +:+ LF +:+ LF),
         (spec_prompt <$> rows1), (spec_prompt <$> rows2).
  split; [apply formatting_batch|].
  split; [apply formatting_batch|].
  rewrite !list_lookup_fmap, H1, H2. simpl.
  rewrite !spec_prompt_eq, <- Hinstr, <- Hinput.
  unfold PROMPT_RESPONSE. rewrite !append_assoc.
  split; reflexivity.
Qed.

Lemma response_prefix_shared_witness :
  exists (before : string) (texts1 texts2 : list string),
    formatting_prompts_func (to_batch [say_hi_row]) = inr texts1
    /\ formatting_prompts_func (to_batch [mkRow "Say hi" "" "Hello"]) = inr texts2
    /\ texts1 !! 0 = Some ((before +:+ "### Response:" +:+ LF) +:+ "Hi there")
    /\ texts2 !! 0 = Some ((before +:+ "### Response:" +:+ LF) +:+ "Hello").
Proof.
  apply (response_prefix_shared [say_hi_row] [mkRow "Say hi" "" "Hello"] 0
           say_hi_row (mkRow "Say hi" "" "Hello")); reflexivity.
Defined.

(** A batch whose output column is one entry short. *)
Example formatting_short_output :
  formatting_prompts_func
    (<["instruction" := VList ["p"; "q"]]>
     (<["input" := VList ["x"; "y"]]>
     (<["output" := VList ["u"]]> ∅))) = inl IndexError.
Proof. vm_compute. reflexivity. Qed.

(** ** The script, for every behaviour of the libraries *)

Section AnyLibrary.
Context (lib : Library).

(** Model acquisition issues its five steps in the order of
    [acquisition_trace] and stops at the first call that raises. *)
Lemma model_acquisition_order :
  snd (model_acquisition []) `prefix_of` acquisition_trace
  /\ (forall m, fst (model_acquisition []) = inr m ->
        snd (model_acquisition []) = acquisition_trace).
Proof.
  unfold_script. unfold acquisition_trace.
  repeat next_call; (split; [| intros m Hm; try discriminate; reflexivity]).
  - exists [SetUseCache false; SetPretrainingTp 1; CallPrepareKbit;
            CallGetPeftModel peft_config]. reflexivity.
  - exists [CallGetPeftModel peft_config]. reflexivity.
  - exists []. reflexivity.
  - exists []. reflexivity.
Qed.

(** The values flow through the steps in the same order. *)
Lemma model_acquisition_dataflow (m0 m1 m2 : Model) :
  AutoModelForCausalLM_from_pretrained MODEL_ID bnb_config "auto" true = inr m0 ->
  prepare_model_for_kbit_training
    (set_pretraining_tp 1 (set_use_cache false m0)) = inr m1 ->
  get_peft_model m1 peft_config = inr m2 ->
  model_acquisition [] = (inr m2, acquisition_trace).
Proof.
  intros H0 H1 H2.
  unfold model_acquisition, run_bind, run_ret, call, emit. cbv beta.
  rewrite H0. cbv beta iota. rewrite H1. cbv beta iota. rewrite H2.
  reflexivity.
Qed.
(** Model acquisition returns exactly what adapter injection returned on
    what preparation returned on the loaded model with both settings
    applied. *)
Lemma model_acquisition_iff (m : Model) :
  fst (model_acquisition []) = inr m <->
  exists loaded prepared,
    AutoModelForCausalLM_from_pretrained MODEL_ID bnb_config "auto" true
    = inr loaded
    /\ prepare_model_for_kbit_training
         (set_pretraining_tp 1 (set_use_cache false loaded)) = inr prepared
    /\ get_peft_model prepared peft_config = inr m.
Proof.
  split.
  - unfold_script. repeat next_call; intros Hm; simplify_eq.
    eexists _, _. repeat split; eassumption.
  - intros (loaded & prepared & Hload & Hprepare & Hpeft).
    rewrite (model_acquisition_dataflow loaded prepared m Hload Hprepare Hpeft).
    reflexivity.
Qed.
End AnyLibrary.

(** ** Model acquisition against the libraries of the specification *)

Lemma lora_pairs_trainable (ps : list Param) :
  Forall adapter_only_trainable (concat (lora_pair <$> ps)).
Proof.
  induction ps as [|p ps IH]; simpl.
  - constructor.
  - repeat constructor; try discriminate. exact IH.
Qed.

Lemma frozen_base_untrainable (ps : list Param) :
  Forall (fun p => is_adapter p = false /\ quantized p = true) ps ->
  Forall adapter_only_trainable (freeze <$> ps).
Proof.
  intros Hbase. apply Forall_fmap. eapply Forall_impl; [exact Hbase|].
  intros p [Hadapter Hquant]. unfold adapter_only_trainable. simpl.
  split; [symmetry; exact Hadapter | intros _; exact Hquant].
Qed.

Lemma spec_peft_parameters (m : Model) (cfg : LoraConfig) (m' : Model) :
  Forall (fun p => is_adapter p = false /\ quantized p = true) (parameters m) ->
  spec_get_peft_model m cfg = inr m' ->
  Forall adapter_only_trainable (parameters m')
  /\ config m' = config m /\ kbit_prepared m' = kbit_prepared m.
Proof.
  intros Hbase Hpeft. unfold spec_get_peft_model, exc_ret in Hpeft.
  injection Hpeft as <-. simpl. split; [|split; reflexivity].
  apply Forall_app_2.
  - apply frozen_base_untrainable. exact Hbase.
  - apply lora_pairs_trainable.
Qed.

(** C5. In every run model acquisition issues its steps in the order
    load, cache and tensor-parallelism settings, k-bit preparation,
    adapter injection, and what it returns is the answer of adapter
    injection on the answer of preparation on the loaded model with both
    settings applied.  Against the libraries as the specification
    describes them the model that comes out has both settings applied,
    is prepared, holds every base parameter of the pretrained model
    frozen and quantized, followed by the adapter parameters, and only
    the adapter parameters are trainable. *)
Theorem model_acquisition_steps (hub : Hub) (names : list string) :
  hub_models hub !! MODEL_ID = Some names ->
  (forall lib : Library,
     snd (@model_acquisition lib []) `prefix_of` acquisition_trace
     /\ (forall m, fst (@model_acquisition lib []) = inr m ->
           snd (@model_acquisition lib []) = acquisition_trace)
     /\ (forall m,
           fst (@model_acquisition lib []) = inr m <->
           exists loaded prepared,
             @AutoModelForCausalLM_from_pretrained lib MODEL_ID bnb_config
               "auto" true = inr loaded
             /\ @prepare_model_for_kbit_training lib
                  (set_pretraining_tp 1 (set_use_cache false loaded))
                = inr prepared
             /\ @get_peft_model lib prepared peft_config = inr m))
  /\ exists m,
       @model_acquisition (spec_library hub) [] = (inr m, acquisition_trace)
       /\ use_cache (config m) = false
       /\ pretraining_tp (config m) = Some 1
       /\ kbit_prepared m = true
       /\ parameters m
          = ((fun n => mkParam n false true false) <$> names)
            ++ concat (lora_pair
                         <$> filter (fun p => is_target p = true)
                               ((fun n => mkParam n true true false) <$> names))
       /\ Forall adapter_only_trainable (parameters m).
Proof.
  intros Hhub. split.
  - intros lib. destruct (model_acquisition_order lib) as [Hprefix Hfull].
    split; [exact Hprefix|]. split; [exact Hfull|].
    intros m. apply model_acquisition_iff.
  - set (base := (fun n => mkParam n true true false) <$> names).
    set (m0 := mkModel base (mkModelConfig true None) false).
    set (m1 := mkModel base (mkModelConfig false (Some 1)) true).
    set (m2 := mkModel ((freeze <$> base)
                          ++ concat (lora_pair
                                       <$> filter (fun p => is_target p = true) base))
                       (mkModelConfig false (Some 1)) true).
    exists m2. split.
    { apply (model_acquisition_dataflow (spec_library hub) m0 m1 m2).
      - simpl. unfold spec_load_model. rewrite Hhub. reflexivity.
      - reflexivity.
      - reflexivity. }
    repeat (split; [reflexivity|]). split.
    + unfold m2, base. simpl. rewrite <- list_fmap_compose. reflexivity.
    + unfold m2. simpl. apply Forall_app_2.
      * apply frozen_base_untrainable. unfold base.
        apply Forall_fmap, Forall_true. intros n. split; reflexivity.
      * apply lora_pairs_trainable.
Qed.

Lemma model_acquisition_steps_witness :
  (forall lib : Library,
     snd (@model_acquisition lib []) `prefix_of` acquisition_trace
     /\ (forall m, fst (@model_acquisition lib []) = inr m ->
           snd (@model_acquisition lib []) = acquisition_trace)
     /\ (forall m,
           fst (@model_acquisition lib []) = inr m <->
           exists loaded prepared,
             @AutoModelForCausalLM_from_pretrained lib MODEL_ID bnb_config
               "auto" true = inr loaded
             /\ @prepare_model_for_kbit_training lib
                  (set_pretraining_tp 1 (set_use_cache false loaded))
                = inr prepared
             /\ @get_peft_model lib prepared peft_config = inr m))
  /\ exists m,
       @model_acquisition (spec_library (demo_hub 8)) [] = (inr m, acquisition_trace)
       /\ use_cache (config m) = false
       /\ pretraining_tp (config m) = Some 1
       /\ kbit_prepared m = true
       /\ parameters m
          = [ mkParam "decoder.layers.0.self_attn.q_proj.weight" false true false;
              mkParam "decoder.layers.0.self_attn.v_proj.weight" false true false;
              mkParam "decoder.layers.0.final_layer_norm.weight" false true false;
              mkParam "decoder.layers.0.self_attn.q_proj.weight.lora_A" true false true;
              mkParam "decoder.layers.0.self_attn.q_proj.weight.lora_B" true false true;
              mkParam "decoder.layers.0.self_attn.v_proj.weight.lora_A" true false true;
              mkParam "decoder.layers.0.self_attn.v_proj.weight.lora_B" true false true ]
       /\ Forall adapter_only_trainable (parameters m).
Proof.
  apply (model_acquisition_steps (demo_hub 8)
           ["decoder.layers.0.self_attn.q_proj.weight";
            "decoder.layers.0.self_attn.v_proj.weight";
            "decoder.layers.0.final_layer_norm.weight"]).
  vm_compute. reflexivity.
Defined.

(** In the demonstration hub two projection layers receive adapters. *)
Example demo_trainable_parameters :
  match fst (@model_acquisition (spec_library (demo_hub 8)) []) with
  | inr m => param_name <$> filter (fun p => requires_grad p = true) (parameters m)
  | inl _ => []
  end
  = [ "decoder.layers.0.self_attn.q_proj.weight.lora_A";
      "decoder.layers.0.self_attn.q_proj.weight.lora_B";
      "decoder.layers.0.self_attn.v_proj.weight.lora_A";
      "decoder.layers.0.self_attn.v_proj.weight.lora_B" ].
Proof. vm_compute. reflexivity. Qed.

(** ** Tokenizer acquisition *)

(** C3, as the code has it.  Whatever tokenizer the loader returns,
    with or without a padding token of its own, tokenizer acquisition
    sets its padding token to its end-of-sequence token and leaves the
    end-of-sequence token alone. *)
Theorem pad_token_always_eos (lib : Library) (t : Tokenizer) :
  AutoTokenizer_from_pretrained MODEL_ID true = inr t ->
  exists t',
    tokenizer_acquisition []
    = (inr t', [CallTokenizerFromPretrained MODEL_ID; SetPadToken])
    /\ pad_token t' = eos_token t
    /\ eos_token t' = eos_token t.
Proof.
  intros Hload. exists (set_pad_token (eos_token t) t).
  unfold tokenizer_acquisition, run_bind, run_ret, call, emit. cbv beta.
  rewrite Hload. repeat split.
Qed.

Lemma pad_token_always_eos_witness :
  exists t',
    @tokenizer_acquisition (spec_library (demo_hub 8)) []
    = (inr t', [CallTokenizerFromPretrained MODEL_ID; SetPadToken])
    /\ pad_token t' = Some "</s>"
    /\ eos_token t' = Some "</s>".
Proof.
  apply (pad_token_always_eos (spec_library (demo_hub 8))
           (mkTokenizer (Some "<pad>") (Some "</s>"))).
  vm_compute. reflexivity.
Defined.

(** C3, as stated, fails: a tokenizer that arrives with a padding token
    of its own leaves tokenizer acquisition with another one. *)
Lemma pad_token_overwritten :
  exists t t',
    @AutoTokenizer_from_pretrained (spec_library (demo_hub 8)) MODEL_ID true = inr t
    /\ pad_token t = Some "<pad>"
    /\ fst (@tokenizer_acquisition (spec_library (demo_hub 8)) []) = inr t'
    /\ pad_token t' = Some "</s>"
    /\ pad_token t' <> pad_token t.
Proof.
  exists (mkTokenizer (Some "<pad>") (Some "</s>")),
         (mkTokenizer (Some "</s>") (Some "</s>")).
  repeat split; try (vm_compute; reflexivity).
  simpl. discriminate.
Qed.

(** ** Dataset acquisition *)

Lemma parse_split_train_500 :
  parse_split "train[:500]" = Some ("train", Some 500).
Proof. vm_compute. reflexivity. Qed.

(** C4. Against the loader as the specification describes it, dataset
    acquisition returns the first 500 records of the train split:
    exactly 500 when the split has at least 500, and fewer only when the
    split is smaller, in which case it returns the whole split. *)
Theorem dataset_slice_500 (hub : Hub) (splits : gmap string (list Row))
    (rows : list Row) :
  hub_datasets hub !! DATASET_ID = Some splits ->
  splits !! "train" = Some rows ->
  exists ds,
    @dataset_acquisition (spec_library hub) []
    = (inr ds, [CallLoadDataset DATASET_ID "train[:500]"])
    /\ ds = take 500 rows
    /\ (500 <= length rows -> length ds = 500)
    /\ (length ds < 500 -> length rows < 500 /\ ds = rows).
Proof.
  intros Hds Hsplit. exists (take 500 rows). split; [|split; [reflexivity|]].
  - unfold dataset_acquisition, call. simpl. unfold spec_load_dataset.
    rewrite Hds, parse_split_train_500, Hsplit. reflexivity.
  - split.
    + intros Hlen. apply length_take_le. exact Hlen.
    + rewrite length_take. intros Hshort.
      assert (length rows < 500) by lia.
      split; [assumption | apply take_ge; lia].
Qed.

Lemma dataset_slice_500_witness :
  exists ds,
    @dataset_acquisition (spec_library (demo_hub 502)) []
    = (inr ds, [CallLoadDataset DATASET_ID "train[:500]"])
    /\ ds = take 500 (repeat say_hi_row 502)
    /\ (500 <= length (repeat say_hi_row 502) -> length ds = 500)
    /\ (length ds < 500 -> length (repeat say_hi_row 502) < 500
                           /\ ds = repeat say_hi_row 502).
Proof.
  apply (dataset_slice_500 (demo_hub 502)
           {[ "train" := repeat say_hi_row 502 ]} (repeat say_hi_row 502));
    vm_compute; reflexivity.
Defined.

(** A split of eight records comes back whole. *)
Example dataset_small_split :
  fst (@dataset_acquisition (spec_library (demo_hub 8)) [])
  = inr (repeat say_hi_row 8).
Proof. vm_compute. reflexivity. Qed.

(** ** The training loop of the specification *)

(** The loop counts examples and never reads them. *)
Lemma epoch_loop_length (batch_size accumulation : nat)
    (examples1 examples2 : list string) :
  length examples1 = length examples2 ->
  forall in_batch pending steps,
    epoch_loop batch_size accumulation examples1 in_batch pending steps
    = epoch_loop batch_size accumulation examples2 in_batch pending steps.
Proof.
  revert examples2.
  induction examples1 as [|x examples1 IH]; intros [|y examples2] Hlen;
    try discriminate; intros in_batch pending steps; [reflexivity|].
  simpl in Hlen. injection Hlen as Hlen. simpl.
  repeat case_match; apply IH; exact Hlen.
Qed.

Lemma epochs_length (n batch_size accumulation : nat)
    (examples1 examples2 : list string) :
  length examples1 = length examples2 ->
  forall steps,
    epochs n batch_size accumulation examples1 steps
    = epochs n batch_size accumulation examples2 steps.
Proof.
  intros Hlen. induction n as [|n IH]; intros steps; [reflexivity|].
  simpl. unfold epoch.
  rewrite (epoch_loop_length _ _ examples1 examples2 Hlen). apply IH.
Qed.

Lemma epochs_500 :
  epochs 1 4 1 (repeat EmptyString 500) 0 = 125.
Proof. vm_compute. reflexivity. Qed.

(** C6. With the arguments the script compiles in (one epoch, batches
    of four, one batch per optimizer update) the training loop of the
    specification, run by one replica over a slice of 500 records
    formatted by the script's function, makes exactly 125 optimizer
    updates. *)
Theorem optimizer_steps_125 (hub : Hub) (m : Model) (ds : Dataset) :
  length ds = 500 ->
  num_train_epochs training_arguments = 1
  /\ per_device_train_batch_size training_arguments = 4
  /\ gradient_accumulation_steps training_arguments = 1
  /\ exists trained,
       exc_bind
         (@SFTTrainer_init (spec_library hub) m ds peft_config
            training_arguments formatting_prompts_func)
         (@SFTTrainer_train (spec_library hub))
       = inr trained
       /\ global_step trained = 125.
Proof.
  intros Hlen. repeat (split; [reflexivity|]).
  unfold SFTTrainer_init, SFTTrainer_train, spec_library, exc_bind, exc_ret,
    spec_train. cbn [trainer_formatting_func trainer_train_dataset].
  rewrite formatting_batch. eexists. split; [reflexivity|].
  cbn [global_step trainer_args num_train_epochs per_device_train_batch_size
       gradient_accumulation_steps training_arguments].
  rewrite (epochs_length 1 4 1 (spec_prompt <$> ds) (repeat EmptyString 500)).
  - exact epochs_500.
  - rewrite length_fmap, repeat_length. exact Hlen.
Qed.

Lemma optimizer_steps_125_witness :
  num_train_epochs training_arguments = 1
  /\ per_device_train_batch_size training_arguments = 4
  /\ gradient_accumulation_steps training_arguments = 1
  /\ exists trained,
       exc_bind
         (@SFTTrainer_init (spec_library (demo_hub 500))
            (mkModel [] (mkModelConfig false (Some 1)) true)
            (repeat say_hi_row 500) peft_config
            training_arguments formatting_prompts_func)
         (@SFTTrainer_train (spec_library (demo_hub 500)))
       = inr trained
       /\ global_step trained = 125.
Proof.
  apply (optimizer_steps_125 (demo_hub 500)
           (mkModel [] (mkModelConfig false (Some 1)) true)
           (repeat say_hi_row 500)).
  vm_compute. reflexivity.
Defined.

(** One record more opens a 126th, shorter batch. *)
Example optimizer_steps_501 :
  epochs 1 4 1 (repeat EmptyString 501) 0 = 126.
Proof. vm_compute. reflexivity. Qed.

(** ** Persistence and failure, for every behaviour of the libraries *)

(** What the trace checker decides. *)
Lemma saves_follow_train_sound (dir : string) (tr : list event) :
  forall trained : bool,
    saves_follow_train dir trained tr = true ->
    forall pre ev post,
      tr = pre ++ ev :: post -> is_save ev = true ->
      (trained = true \/ In CallTrain pre) /\ saves_to dir ev = true.
Proof.
  induction tr as [|ev0 tr IH]; intros trained Hcheck pre ev post Hsplit Hsave.
  - destruct pre; discriminate.
  - simpl in Hcheck. destruct pre as [|ev1 pre]; simpl in Hsplit.
    + injection Hsplit as <- <-. rewrite Hsave in Hcheck.
      apply andb_prop in Hcheck as [Hcheck _].
      apply andb_prop in Hcheck as [Htrained Hdir].
      split; [left; exact Htrained | exact Hdir].
    + injection Hsplit as <- ->.
      destruct (is_save ev0) eqn:Hsave0.
      * apply andb_prop in Hcheck as [Hcheck Hrest].
        apply andb_prop in Hcheck as [Htrained _].
        split; [left; exact Htrained|].
        exact (proj2 (IH trained Hrest pre ev post eq_refl Hsave)).
      * destruct (IH _ Hcheck pre ev post eq_refl Hsave) as [Hseen Hdir].
        split; [| exact Hdir].
        destruct Hseen as [Hseen | Hin]; [| right; right; exact Hin].
        apply orb_prop in Hseen as [Htrained | Htrain];
          [left; exact Htrained|].
        right; left. destruct ev0; try discriminate. reflexivity.
Qed.

(** The run of the whole script when every call returns. *)
Example demo_main :
  @main (spec_library (demo_hub 8)) = (0, full_trace).
Proof. vm_compute. reflexivity. Qed.

(** Once the training loop has returned the script goes on to save:
    the model of the trained trainer first, then, when that has returned,
    the tokenizer of tokenizer acquisition, then the last message. *)
Lemma saves_after_training (lib : Library) (tokenizer : Tokenizer)
    (trained : SFTTrainer) :
  trained_run lib tokenizer trained ->
  match Model_save_pretrained (trainer_model trained) OUTPUT_DIR with
  | inl e => finetune_model [] = (inl e, take 15 full_trace)
  | inr _ =>
      match Tokenizer_save_pretrained tokenizer OUTPUT_DIR with
      | inl e => finetune_model [] = (inl e, take 16 full_trace)
      | inr _ => finetune_model [] = (inr tt, full_trace)
      end
  end.
Proof.
  intros (model & dataset & trainer & Hm & Ht & Hd & Hinit & Htrain).
  revert Hm Ht Hd. unfold_script.
  destruct (AutoModelForCausalLM_from_pretrained _ _ _ _) as [e | m0];
    simpl; [discriminate|].
  destruct (prepare_model_for_kbit_training _) as [e | m1];
    simpl; [discriminate|].
  destruct (get_peft_model _ _) as [e | m2]; simpl; [discriminate|].
  destruct (AutoTokenizer_from_pretrained _ _) as [e | t0];
    simpl; [discriminate|].
  destruct (load_dataset _ _) as [e | ds]; simpl; [discriminate|].
  intros Hm Ht Hd. simplify_eq. rewrite Hinit. simpl. rewrite Htrain. simpl.
  destruct (Model_save_pretrained _ _) as [e | []]; simpl; [reflexivity|].
  destruct (Tokenizer_save_pretrained _ _) as [e | []]; simpl; reflexivity.
Qed.

(** C8, as the code has it.  In every run the script issues a save only
    after the call of the training loop, to the configured output
    directory, and only when model, tokenizer and dataset acquisition,
    the construction of the trainer and the training loop itself have all
    returned.  Once the training loop has returned the script does save:
    the model of the trained trainer, then the tokenizer, then the last
    message, stopping only at a save that raises.  The training
    arguments ask the trainer for a snapshot of the model state into the
    same directory at the end of every epoch. *)
Theorem persistence_last (lib : Library) :
  (forall pre ev post,
     snd (finetune_model []) = pre ++ ev :: post -> is_save ev = true ->
     In CallTrain pre /\ saves_to OUTPUT_DIR ev = true)
  /\ (existsb is_save (snd (finetune_model [])) = true ->
      exists model tokenizer dataset trainer trained,
        fst (model_acquisition []) = inr model
        /\ fst (tokenizer_acquisition []) = inr tokenizer
        /\ fst (dataset_acquisition []) = inr dataset
        /\ SFTTrainer_init model dataset peft_config training_arguments
                           formatting_prompts_func = inr trainer
        /\ SFTTrainer_train trainer = inr trained)
  /\ (fst (finetune_model []) = inr tt ->
      snd (finetune_model []) = full_trace
      /\ exists pre,
           full_trace = pre ++ [ CallTrain; CallModelSave OUTPUT_DIR;
                                 CallTokenizerSave OUTPUT_DIR;
                                 Printed "Fine-tuning complete. Model adapters saved to ./phi-2-alpaca-qlora" ])
  /\ (forall tokenizer trained,
        trained_run lib tokenizer trained ->
        match Model_save_pretrained (trainer_model trained) OUTPUT_DIR with
        | inl e => finetune_model [] = (inl e, take 15 full_trace)
        | inr _ =>
            match Tokenizer_save_pretrained tokenizer OUTPUT_DIR with
            | inl e => finetune_model [] = (inl e, take 16 full_trace)
            | inr _ => finetune_model [] = (inr tt, full_trace)
            end
        end)
  /\ (forall t : SFTTrainer,
        trainer_args t = training_arguments ->
        spec_checkpoints t
        = [mkSnapshot OUTPUT_DIR 1 (parameters (trainer_model t))]).
Proof.
  split; [|split; [|split; [|split]]].
  - intros pre ev post Hsplit Hsave.
    assert (Hcheck : saves_follow_train OUTPUT_DIR false
                       (snd (finetune_model [])) = true).
    { clear. unfold_script. repeat next_call; reflexivity. }
    destruct (saves_follow_train_sound _ _ _ Hcheck pre ev post Hsplit Hsave)
      as [[Hfalse | Hin] Hdir]; [discriminate|].
    split; assumption.
  - unfold_script.
    repeat next_call; intros Hsaved; try discriminate;
      eexists _, _, _, _, _; (repeat split; [reflexivity .. | |]); eassumption.
  - intros Hok. split.
    + revert Hok. unfold_script. repeat next_call; intros Hok;
        try discriminate; reflexivity.
    + eexists (take 13 full_trace). reflexivity.
  - intros tokenizer trained Hrun.
    exact (saves_after_training lib tokenizer trained Hrun).
  - intros t Hargs. unfold spec_checkpoints. rewrite Hargs. reflexivity.
Qed.

Lemma persistence_last_witness :
  @finetune_model (spec_library (demo_hub 8)) [] = (inr tt, full_trace).
Proof.
  destruct (persistence_last (spec_library (demo_hub 8)))
    as (_ & _ & _ & Hsaves & _).
  apply (Hsaves (mkTokenizer (Some "</s>") (Some "</s>"))
                (demo_trained (spec_library (demo_hub 8)))).
  unfold trained_run. eexists _, _, _.
  repeat split; vm_compute; reflexivity.
Defined.

(** C8, as stated, fails: in the run against the demonstration hub the
    trainer, as the training arguments ask, writes a snapshot of the
    model, adapter parameters included, into the output directory inside
    the training call, before the script has issued any save. *)
Lemma checkpoint_precedes_saves :
  exists tokenizer trained pre snapshot post,
    trained_run (spec_library (demo_hub 8)) tokenizer trained
    /\ timeline (spec_checkpoints trained)
                (snd (@finetune_model (spec_library (demo_hub 8)) []))
       = pre ++ Checkpoint snapshot :: post
    /\ snapshot_dir snapshot = OUTPUT_DIR
    /\ existsb is_adapter (snapshot_parameters snapshot) = true
    /\ existsb is_save_step pre = false
    /\ existsb is_save_step post = true.
Proof.
  exists (mkTokenizer (Some "</s>") (Some "</s>")),
         (demo_trained (spec_library (demo_hub 8))),
         (Step <$> take 14 full_trace),
         (mkSnapshot OUTPUT_DIR 1
            (parameters (trainer_model (demo_trained (spec_library (demo_hub 8)))))),
         (Step <$> drop 14 full_trace).
  split.
  { unfold trained_run. eexists _, _, _.
    repeat split; vm_compute; reflexivity. }
  repeat split; vm_compute; reflexivity.
Qed.

(** C9. When the dataset loader raises on the script's dataset
    identifier, the run ends with an exception nobody catches and the
    process with status 1; nothing was saved, the trainer was never
    built, and the loader was called at most once.  When model and
    tokenizer acquisition have returned, the exception is the loader's
    own and the run stops right at the fetch. *)
Theorem unresolvable_dataset_aborts (lib : Library) (e : exn) :
  load_dataset DATASET_ID "train[:500]" = inl e ->
  exists e' tr,
    finetune_model [] = (inl e', tr)
    /\ main = (1, tr)
    /\ existsb is_save tr = false
    /\ tr `prefix_of` dataset_fetch_trace
    /\ length (List.filter is_load_dataset tr) <= 1
    /\ (forall model tokenizer,
          fst (model_acquisition []) = inr model ->
          fst (tokenizer_acquisition []) = inr tokenizer ->
          e' = e /\ tr = dataset_fetch_trace).
Proof.
  intros Hraise. unfold_script.
  repeat (first [rewrite Hraise; simpl | next_call]);
    eexists _, _; (split; [reflexivity|]); (split; [reflexivity|]);
    (split; [reflexivity|]);
    (split; [eexists; reflexivity |
             split; [simpl; lia |
                     intros model tokenizer Hm Ht; try discriminate;
                     split; reflexivity]]).
Qed.

Lemma unresolvable_dataset_aborts_witness :
  exists e' tr,
    @finetune_model (spec_library offline_hub) [] = (inl e', tr)
    /\ @main (spec_library offline_hub) = (1, tr)
    /\ existsb is_save tr = false
    /\ tr `prefix_of` dataset_fetch_trace
    /\ length (List.filter is_load_dataset tr) <= 1
    /\ (forall model tokenizer,
          fst (@model_acquisition (spec_library offline_hub) []) = inr model ->
          fst (@tokenizer_acquisition (spec_library offline_hub) []) = inr tokenizer ->
          e' = LibraryError "unresolvable dataset identifier"
          /\ tr = dataset_fetch_trace).
Proof.
  apply (unresolvable_dataset_aborts (spec_library offline_hub)
           (LibraryError "unresolvable dataset identifier")).
  vm_compute. reflexivity.
Defined.

(** The run against a hub without the dataset, spelled out. *)
Example offline_main :
  @main (spec_library offline_hub) = (1, dataset_fetch_trace).
Proof. vm_compute. reflexivity. Qed.

(** * Further properties of the formatting function *)

Lemma py_len_items (v : value) : py_len v = length (items v).
Proof. destruct v as [s | l]; reflexivity. Qed.

Lemma py_getitem_items (v : value) (i : nat) :
  py_getitem v i
  = match items v !! i with
    | Some x => inr x
    | None => inl IndexError
    end.
Proof. destruct v as [s | l]; reflexivity. Qed.

Lemma prompt_text_explode (example : gmap string value) (i : nat) :
  prompt_text (explode <$> example) i = prompt_text example i.
Proof.
  unfold prompt_text, dict_getitem. rewrite !lookup_fmap.
  destruct (example !! "instruction") as [va|]; simpl; [| reflexivity].
  rewrite (py_getitem_items va).
  destruct (items va !! i); simpl; [| reflexivity].
  destruct (example !! "input") as [vb|]; simpl; [| reflexivity].
  rewrite (py_getitem_items vb).
  destruct (items vb !! i); simpl; [| reflexivity].
  destruct (example !! "output") as [vc|]; simpl; [| reflexivity].
  rewrite (py_getitem_items vc). reflexivity.
Qed.

Lemma for_range_ext (example1 example2 : gmap string value) :
  (forall i, prompt_text example1 i = prompt_text example2 i) ->
  forall range acc,
    for_range example1 range acc = for_range example2 range acc.
Proof.
  intros Hext. induction range as [|i range IH]; intros acc; [reflexivity|].
  simpl. rewrite Hext. destruct (prompt_text example2 i); simpl;
    [reflexivity | apply IH].
Qed.

Lemma formatting_explode (example : gmap string value) :
  formatting_prompts_func (explode <$> example)
  = formatting_prompts_func example.
Proof.
  unfold formatting_prompts_func, dict_getitem. rewrite lookup_fmap.
  destruct (example !! "instruction") as [va|]; simpl; [| reflexivity].
  rewrite py_len_items.
  apply for_range_ext. intros i. apply prompt_text_explode.
Qed.

(** What a run of the loop that returns has appended: one text per
    index, after the texts it started with. *)
Lemma for_range_returns (example : gmap string value) (n : nat) :
  forall (k : nat) (acc out : list string),
    for_range example (seq k n) acc = inr out ->
    length out = length acc + n
    /\ (forall j, j < length acc -> out !! j = acc !! j)
    /\ (forall j, j < n ->
          exists text, prompt_text example (k + j) = inr text
                       /\ out !! (length acc + j) = Some text).
Proof.
  induction n as [|n IH]; intros k acc out Hrun; simpl in Hrun.
  - injection Hrun as <-. repeat split; [lia | lia].
  - destruct (prompt_text example k) as [e | text] eqn:Htext; simpl in Hrun;
      [discriminate|].
    destruct (IH _ _ _ Hrun) as (Hlen & Hold & Hnew).
    rewrite length_app in Hlen, Hold, Hnew. simpl in Hlen, Hold, Hnew.
    split; [lia|]. split.
    + intros j Hj. rewrite Hold by lia. apply lookup_app_l. exact Hj.
    + intros [|j] Hj.
      * exists text. rewrite !Nat.add_0_r. split; [exact Htext|].
        rewrite Hold by lia. apply list_lookup_middle. reflexivity.
      * destruct (Hnew j) as (text' & Htext' & Hout); [lia|].
        exists text'. split.
        -- rewrite <- Htext'. f_equal. lia.
        -- rewrite <- Hout. f_equal. lia.
Qed.

Lemma py_getitem_in_range (v : value) (i : nat) :
  i < py_len v -> exists x, py_getitem v i = inr x.
Proof.
  intros Hi. rewrite py_getitem_items. rewrite py_len_items in Hi.
  destruct (lookup_lt_is_Some_2 (items v) i Hi) as [x ->]. exists x. reflexivity.
Qed.

(** The content of the texts of a batch whose input and output columns
    are at least as long as the instruction column. *)
Lemma formatting_columns_content (example : gmap string value)
    (col_a col_b col_c : list string) :
  example !! "instruction" = Some (VList col_a) ->
  example !! "input" = Some (VList col_b) ->
  example !! "output" = Some (VList col_c) ->
  length col_a <= length col_b -> length col_a <= length col_c ->
  exists texts,
    formatting_prompts_func example = inr texts
    /\ length texts = length col_a
    /\ forall i a b c,
         col_a !! i = Some a -> col_b !! i = Some b -> col_c !! i = Some c ->
         texts !! i = Some (prompt_of a b c).
Proof.
  intros Ha Hb Hc Hlb Hlc.
  destruct (for_range_columns example col_a col_b col_c Ha Hb Hc
              (length col_a) 0 []) as (texts & Hrun & Hlen); [lia..|].
  simpl in Hrun. exists texts.
  unfold formatting_prompts_func, dict_getitem. rewrite Ha. simpl.
  split; [exact Hrun|]. split; [exact Hlen|].
  intros i a b c Hia Hib Hic.
  destruct (for_range_returns example _ _ _ _ Hrun) as (_ & _ & Hnew).
  destruct (Hnew i) as (text & Htext & Hout);
    [apply lookup_lt_Some in Hia; exact Hia|].
  simpl in Htext, Hout.
  rewrite (prompt_text_columns example _ _ _ Ha Hb Hc i a b c Hia Hib Hic)
    in Htext.
  injection Htext as <-. exact Hout.
Qed.

Lemma formatting_columns_short (example : gmap string value)
    (col_a col_b col_c : list string) :
  example !! "instruction" = Some (VList col_a) ->
  example !! "input" = Some (VList col_b) ->
  example !! "output" = Some (VList col_c) ->
  ~ (length col_a <= length col_b /\ length col_a <= length col_c) ->
  formatting_prompts_func example = inl IndexError.
Proof.
  intros Ha Hb Hc Hshort. unfold formatting_prompts_func, dict_getitem.
  rewrite Ha. simpl.
  apply (for_range_short example col_a col_b col_c Ha Hb Hc); lia.
Qed.

(** C10. On a mapping whose three fields are lists the function returns
    one formatted text per entry of the instruction list, text [i] being
    the template filled with entry [i] of each list, when the input and
    output lists are at least as long, and raises an index error
    otherwise. *)
Theorem formatting_batch_safety (example : gmap string value)
    (col_a col_b col_c : list string) :
  example !! "instruction" = Some (VList col_a) ->
  example !! "input" = Some (VList col_b) ->
  example !! "output" = Some (VList col_c) ->
  (length col_a <= length col_b /\ length col_a <= length col_c ->
     exists texts, formatting_prompts_func example = inr texts
                   /\ length texts = length col_a
                   /\ forall i a b c,
                        col_a !! i = Some a -> col_b !! i = Some b ->
                        col_c !! i = Some c ->
                        texts !! i
                        = Some (PROMPT_HEAD +:+ a +:+ PROMPT_INPUT +:+ b
                                            +:+ PROMPT_RESPONSE +:+ c))
  /\ (~ (length col_a <= length col_b /\ length col_a <= length col_c) ->
        formatting_prompts_func example = inl IndexError).
Proof.
  intros Ha Hb Hc. split.
  - intros [Hlb Hlc].
    destruct (formatting_columns_content example col_a col_b col_c
                Ha Hb Hc Hlb Hlc) as (texts & Hrun & Hlen & Hcontent).
    exists texts. split; [exact Hrun|]. split; [exact Hlen|].
    intros i a b c Hia Hib Hic. exact (Hcontent i a b c Hia Hib Hic).
  - intros Hshort.
    exact (formatting_columns_short example col_a col_b col_c
             Ha Hb Hc Hshort).
Qed.

Lemma formatting_batch_safety_witness :
  (exists texts,
     formatting_prompts_func long_output_batch = inr texts
     /\ length texts = 2
     /\ texts !! 1 = Some (PROMPT_HEAD +:+ "q" +:+ PROMPT_INPUT +:+ "y"
                                       +:+ PROMPT_RESPONSE +:+ "v"))
  /\ formatting_prompts_func short_output_batch = inl IndexError.
Proof.
  split.
  - assert (Ha : long_output_batch !! "instruction" = Some (VList ["p"; "q"]))
      by reflexivity.
    assert (Hb : long_output_batch !! "input" = Some (VList ["x"; "y"]))
      by reflexivity.
    assert (Hc : long_output_batch !! "output" = Some (VList ["u"; "v"; "w"]))
      by reflexivity.
    destruct (formatting_batch_safety _ _ _ _ Ha Hb Hc) as [Hok _].
    destruct Hok as (texts & Hrun & Hlen & Hcontent); [simpl; lia|].
    exists texts. split; [exact Hrun|]. split; [exact Hlen|].
    exact (Hcontent 1 "q" "y" "v" eq_refl eq_refl eq_refl).
  - assert (Ha : short_output_batch !! "instruction" = Some (VList ["p"; "q"]))
      by reflexivity.
    assert (Hb : short_output_batch !! "input" = Some (VList ["x"; "y"]))
      by reflexivity.
    assert (Hc : short_output_batch !! "output" = Some (VList ["u"]))
      by reflexivity.
    destruct (formatting_batch_safety _ _ _ _ Ha Hb Hc) as [_ Hshort].
    apply Hshort. simpl. lia.
Defined.

(** X1. Keys are looked up lazily and from left to right.  A mapping
    without the instruction key raises the key error at once; a missing
    input or output key is reported as a key error when the first record
    is formatted, the input before the output; an empty input column
    raises the index error before the output key is looked up; on an
    empty batch neither is looked at and the function returns the empty
    list. *)
Theorem formatting_missing_key (example : gmap string value) :
  (example !! "instruction" = None ->
   formatting_prompts_func example = inl (KeyError "instruction"))
  /\ (forall va,
        example !! "instruction" = Some va -> 0 < py_len va ->
        example !! "input" = None ->
        formatting_prompts_func example = inl (KeyError "input"))
  /\ (forall va vb,
        example !! "instruction" = Some va -> 0 < py_len va ->
        example !! "input" = Some vb -> 0 < py_len vb ->
        example !! "output" = None ->
        formatting_prompts_func example = inl (KeyError "output"))
  /\ (forall va vb,
        example !! "instruction" = Some va -> 0 < py_len va ->
        example !! "input" = Some vb -> py_len vb = 0 ->
        formatting_prompts_func example = inl IndexError)
  /\ (forall va,
        example !! "instruction" = Some va -> py_len va = 0 ->
        formatting_prompts_func example = inr []).
Proof.
  unfold formatting_prompts_func, dict_getitem. repeat split.
  - intros ->. reflexivity.
  - intros va Ha Hlen Hb. rewrite Ha. simpl.
    destruct (py_len va) as [|n] eqn:Hn; [lia|]. simpl.
    unfold prompt_text, dict_getitem. rewrite Ha. simpl.
    destruct (py_getitem_in_range va 0) as [a ->]; [lia|]. simpl.
    rewrite Hb. reflexivity.
  - intros va vb Ha Hla Hb Hlb Hc. rewrite Ha. simpl.
    destruct (py_len va) as [|n] eqn:Hn; [lia|]. simpl.
    unfold prompt_text, dict_getitem. rewrite Ha. simpl.
    destruct (py_getitem_in_range va 0) as [a ->]; [lia|]. simpl.
    rewrite Hb. simpl.
    destruct (py_getitem_in_range vb 0) as [b ->]; [lia|]. simpl.
    rewrite Hc. reflexivity.
  - intros va vb Ha Hla Hb Hlb. rewrite Ha. simpl.
    destruct (py_len va) as [|n] eqn:Hn; [lia|]. simpl.
    unfold prompt_text, dict_getitem. rewrite Ha. simpl.
    destruct (py_getitem_in_range va 0) as [a ->]; [lia|]. simpl.
    rewrite Hb. simpl. rewrite py_getitem_items.
    rewrite py_len_items in Hlb.
    destruct (items vb) as [|b bs]; [reflexivity | discriminate].
  - intros va -> Hlen. simpl. rewrite Hlen. reflexivity.
Qed.

(** X2. A string is formatted as the batch of its characters: turning
    every string entry of the mapping into the list of its characters
    changes neither the texts nor the exception. *)
Theorem strings_are_character_batches (example : gmap string value) :
  formatting_prompts_func (explode <$> example)
  = formatting_prompts_func example.
Proof. exact (formatting_explode example). Qed.

(** X3. On a ragged batch whose input and output columns are at least as
    long as the instruction column, text [i] is built from entry [i] of
    each column; the surplus entries of the longer columns play no part. *)
Theorem formatting_ragged_batch (example : gmap string value)
    (col_a col_b col_c : list string) :
  example !! "instruction" = Some (VList col_a) ->
  example !! "input" = Some (VList col_b) ->
  example !! "output" = Some (VList col_c) ->
  length col_a <= length col_b -> length col_a <= length col_c ->
  exists texts,
    formatting_prompts_func example = inr texts
    /\ length texts = length col_a
    /\ forall i a b c,
         col_a !! i = Some a -> col_b !! i = Some b -> col_c !! i = Some c ->
         texts !! i = Some (prompt_of a b c).
Proof. exact (formatting_columns_content example col_a col_b col_c). Qed.

Lemma formatting_ragged_batch_witness :
  exists texts,
    formatting_prompts_func
      (<["instruction" := VList ["p"]]>
       (<["input" := VList ["x"; "y"]]>
       (<["output" := VList ["u"; "v"; "w"]]> ∅))) = inr texts
    /\ length texts = 1
    /\ forall i a b c,
         ["p"] !! i = Some a -> ["x"; "y"] !! i = Some b ->
         ["u"; "v"; "w"] !! i = Some c ->
         texts !! i = Some (prompt_of a b c).
Proof.
  apply (formatting_ragged_batch
           (<["instruction" := VList ["p"]]>
            (<["input" := VList ["x"; "y"]]>
            (<["output" := VList ["u"; "v"; "w"]]> ∅)))
           ["p"] ["x"; "y"] ["u"; "v"; "w"]);
    first [reflexivity | simpl; lia].
Defined.

Lemma to_record_exploded (r : Row) :
  (explode <$> to_record r) !! "instruction"
  = Some (VList (chars (instruction r)))
  /\ (explode <$> to_record r) !! "input" = Some (VList (chars (input r)))
  /\ (explode <$> to_record r) !! "output" = Some (VList (chars (output r))).
Proof. rewrite !lookup_fmap. repeat split. Qed.

(** The characters of a string without multi-byte characters are its
    bytes. *)
Lemma chars_single_bytes (s : string) :
  (forall i c, String.get i s = Some c -> is_continuation c = false) ->
  chars s = (fun c => String c EmptyString) <$> list_ascii_of_string s.
Proof.
  induction s as [|c s IH]; intros Hbytes; [reflexivity|].
  assert (Htail : chars s
                  = (fun c => String c EmptyString) <$> list_ascii_of_string s).
  { apply IH. intros i c' Hget. apply (Hbytes (S i)). exact Hget. }
  change (chars (String c s)) with
    (match chars s with
     | p :: ps =>
         if continues s then String c p :: ps
         else String c EmptyString :: p :: ps
     | [] => [String c EmptyString]
     end).
  rewrite Htail. destruct s as [|c' s]; [reflexivity|]. simpl.
  rewrite (Hbytes 1 c' eq_refl). reflexivity.
Qed.

(** X4. Handed one record whose fields are strings, the function
    formats it character by character: it returns one text per character
    of the instruction, built from the characters at the same position of
    the three fields, when input and output have at least as many
    characters as the instruction, and raises an index error otherwise.
    Characters are code points: a multi-byte character counts once. *)
Theorem formatting_record_of_strings (r : Row) :
  (length (chars (instruction r)) <= length (chars (input r))
   /\ length (chars (instruction r)) <= length (chars (output r)) ->
   exists texts,
     formatting_prompts_func (to_record r) = inr texts
     /\ length texts = length (chars (instruction r))
     /\ forall i a b c,
          chars (instruction r) !! i = Some a ->
          chars (input r) !! i = Some b ->
          chars (output r) !! i = Some c ->
          texts !! i = Some (prompt_of a b c))
  /\ (~ (length (chars (instruction r)) <= length (chars (input r))
         /\ length (chars (instruction r)) <= length (chars (output r))) ->
      formatting_prompts_func (to_record r) = inl IndexError).
Proof.
  destruct (to_record_exploded r) as (Ha & Hb & Hc).
  rewrite <- formatting_explode. split.
  - intros [Hlb Hlc].
    exact (formatting_columns_content _ _ _ _ Ha Hb Hc Hlb Hlc).
  - intros Hshort.
    exact (formatting_columns_short _ _ _ _ Ha Hb Hc Hshort).
Qed.

(** The instruction U+65E5 is one character of three bytes: one text.
    An accented instruction of four characters and five bytes against
    fields of four characters: four texts. *)
Example formatting_record_multibyte :
  py_len (VStr (String "230" (String "151" (String "165" EmptyString)))) = 1
  /\ exc_bind
       (formatting_prompts_func
          (to_record (mkRow (String "230" (String "151" (String "165" EmptyString)))
                            "x" "y")))
       (fun texts => exc_ret (length texts)) = inr 1
  /\ exc_bind
       (formatting_prompts_func
          (to_record (mkRow ("caf" +:+ String "195" (String "169" EmptyString))
                            "abcd" "wxyz")))
       (fun texts => exc_ret (length texts)) = inr 4.
Proof. repeat split; vm_compute; reflexivity. Qed.

(** ** The shape of a training text *)

Lemma length_append (s1 s2 : string) :
  String.length (s1 +:+ s2) = String.length s1 + String.length s2.
Proof.
  induction s1 as [|c s1 IH]; [reflexivity|].
  change (S (String.length (s1 +:+ s2))
          = S (String.length s1 + String.length s2)).
  rewrite IH. reflexivity.
Qed.

Lemma substring_all (s : string) :
  String.substring 0 (String.length s) s = s.
Proof. induction s as [|c s IH]; simpl; [reflexivity | rewrite IH; reflexivity]. Qed.

Lemma substring_append_r (s1 s2 : string) :
  String.substring (String.length s1) (String.length s2) (s1 +:+ s2) = s2.
Proof.
  induction s1 as [|c s1 IH]; [apply substring_all|].
  change (String.substring (String.length s1) (String.length s2) (s1 +:+ s2)
          = s2).
  exact IH.
Qed.

Lemma spec_prompt_length (row : Row) :
  String.length (spec_prompt row)
  = PROMPT_OVERHEAD + String.length (instruction row)
    + String.length (input row) + String.length (output row).
Proof.
  rewrite spec_prompt_eq, !length_append. unfold PROMPT_OVERHEAD. lia.
Qed.

(** X5. A training text is exactly 205 characters longer than the
    three fields of its record together. *)
Theorem training_text_length (rows : list Row) (i : nat) (row : Row) :
  rows !! i = Some row ->
  exists texts text,
    formatting_prompts_func (to_batch rows) = inr texts
    /\ texts !! i = Some text
    /\ String.length text
       = 205 + String.length (instruction row)
         + String.length (input row) + String.length (output row).
Proof.
  intros Hrow. exists (spec_prompt <$> rows), (spec_prompt row).
  split; [apply formatting_batch|].
  split; [rewrite list_lookup_fmap, Hrow; reflexivity|].
  rewrite spec_prompt_length. reflexivity.
Qed.

Lemma training_text_length_witness :
  exists texts text,
    formatting_prompts_func (to_batch [mkRow "a" "b" "c"; say_hi_row]) = inr texts
    /\ texts !! 1 = Some text
    /\ String.length text
       = 205 + String.length "Say hi" + String.length "" + String.length "Hi there".
Proof.
  apply (training_text_length [mkRow "a" "b" "c"; say_hi_row] 1 say_hi_row).
  reflexivity.
Defined.

(** X6. A training text ends with the output of its record: its last
    characters, as many as the output has, are the output. *)
Theorem training_text_ends_with_output (rows : list Row) (i : nat)
    (row : Row) :
  rows !! i = Some row ->
  exists texts text,
    formatting_prompts_func (to_batch rows) = inr texts
    /\ texts !! i = Some text
    /\ String.substring (String.length text - String.length (output row))
                        (String.length (output row)) text
       = output row.
Proof.
  intros Hrow. exists (spec_prompt <$> rows), (spec_prompt row).
  split; [apply formatting_batch|].
  split; [rewrite list_lookup_fmap, Hrow; reflexivity|].
  rewrite spec_prompt_eq.
  rewrite <- !append_assoc.
  set (before := (((PROMPT_HEAD +:+ instruction row) +:+ PROMPT_INPUT)
                    +:+ input row) +:+ PROMPT_RESPONSE).
  rewrite length_append.
  replace (String.length before + String.length (output row)
           - String.length (output row)) with (String.length before) by lia.
  apply substring_append_r.
Qed.

Lemma training_text_ends_with_output_witness :
  exists texts text,
    formatting_prompts_func (to_batch [say_hi_row]) = inr texts
    /\ texts !! 0 = Some text
    /\ String.substring (String.length text - String.length "Hi there")
                        (String.length "Hi there") text
       = "Hi there".
Proof.
  apply (training_text_ends_with_output [say_hi_row] 0 say_hi_row).
  reflexivity.
Defined.

(** X7. The fields are not escaped, so formatting is not injective: two
    different records, one carrying the Input header inside its
    instruction and the other inside its input, give the same text. *)
Theorem formatting_not_injective :
  exists row1 row2 : Row,
    row1 <> row2
    /\ formatting_prompts_func (to_batch [row1])
       = formatting_prompts_func (to_batch [row2]).
Proof.
  exists (mkRow "a" ("b" +:+ PROMPT_INPUT +:+ "c") "o"),
         (mkRow ("a" +:+ PROMPT_INPUT +:+ "b") "c" "o").
  split; [intros H; vm_compute in H; discriminate | vm_compute; reflexivity].
Qed.

(** X8. The prompt of the inference example is the beginning of no
    training text: the two part ways after 45 characters, where the
    training template goes on with a comma and the inference prompt
    with a full stop. *)
Theorem inference_prompt_differs (rows : list Row) :
  exists texts,
    formatting_prompts_func (to_batch rows) = inr texts
    /\ Forall (fun text => String.prefix prompt text = false
                           /\ String.substring 0 45 text
                              = String.substring 0 45 prompt) texts.
Proof.
  exists (spec_prompt <$> rows). split; [apply formatting_batch|].
  apply Forall_fmap, Forall_true. intros row. unfold compose.
  rewrite spec_prompt_eq. split; vm_compute; reflexivity.
Qed.

(** * Further properties of the script *)

Lemma full_trace_NoDup : NoDup full_trace.
Proof.
  unfold full_trace, acquisition_trace. simpl.
  repeat (apply NoDup_cons; split;
          [ rewrite ?not_elem_of_cons; repeat split;
            first [discriminate | apply not_elem_of_nil] | ]).
  apply NoDup_nil_2.
Qed.

Lemma finetune_prefix (lib : Library) :
  snd (finetune_model []) `prefix_of` full_trace.
Proof. unfold_script. repeat next_call; eexists; reflexivity. Qed.

Lemma finetune_ok_full (lib : Library) :
  fst (finetune_model []) = inr tt <-> snd (finetune_model []) = full_trace.
Proof.
  unfold_script.
  repeat next_call; split; intros H; first [discriminate | reflexivity].
Qed.

(** X9. Against libraries whose calls return or raise ordinary
    exceptions, the process exits with status 0 exactly when the script
    went through all its steps; in every other run the status is 1 and
    what the script did is a proper beginning of the full sequence of
    steps. *)
Theorem exit_status_zero_iff_complete (lib : Library) :
  snd main = snd (finetune_model [])
  /\ snd main `prefix_of` full_trace
  /\ (fst main = 0 <-> snd main = full_trace)
  /\ (fst main = 1 <-> length (snd main) < length full_trace).
Proof.
  assert (Hmain : snd main = snd (finetune_model [])
                  /\ (fst main = 0 <-> fst (finetune_model []) = inr tt)
                  /\ (fst main = 1 <-> fst (finetune_model []) <> inr tt)).
  { unfold main. destruct (finetune_model []) as [[e | []] tr]; simpl;
      repeat split; intros; first [discriminate | congruence | reflexivity]. }
  destruct Hmain as (Htr & Hzero & Hone).
  pose proof (finetune_prefix lib) as Hprefix.
  pose proof (finetune_ok_full lib) as Hok.
  rewrite Htr, Hzero, Hone, Hok.
  split; [reflexivity|]. split; [exact Hprefix|]. split; [tauto|]. split.
  - intros Hneq. apply prefix_length in Hprefix as Hle.
    destruct (decide (length (snd (finetune_model [])) = length full_trace))
      as [Heq | Hlt]; [| lia].
    exfalso. apply Hneq. apply prefix_length_eq; [assumption | lia].
  - intros Hlt Heq. rewrite Heq in Hlt. lia.
Qed.

(** X10. No step is ever repeated: in every run each message is printed
    and each library function called at most once. *)
Theorem no_step_repeated (lib : Library) :
  NoDup (snd (finetune_model [])).
Proof.
  destruct (finetune_prefix lib) as [rest Hrest].
  pose proof full_trace_NoDup as Hnodup. rewrite Hrest in Hnodup.
  apply NoDup_app in Hnodup. tauto.
Qed.

(** X11. The completion message is printed exactly in the runs in which
    every call has returned. *)
Theorem completion_message_iff_success (lib : Library) :
  completion_message ∈ snd (finetune_model [])
  <-> fst (finetune_model []) = inr tt.
Proof.
  unfold completion_message. unfold_script.
  repeat next_call; rewrite list_elem_of_In; simpl; split; intros H;
    first [discriminate | reflexivity | tauto | intuition discriminate].
Qed.

(** X12. When every call up to the training loop has returned and both
    saves return, the run completes: the script has saved the model of
    the trained trainer, then the tokenizer that tokenizer acquisition
    produced, both to the output directory, and the process exits with
    status 0. *)
Theorem run_completes (lib : Library) (tokenizer : Tokenizer)
    (trained : SFTTrainer) :
  trained_run lib tokenizer trained ->
  Model_save_pretrained (trainer_model trained) OUTPUT_DIR = inr tt ->
  Tokenizer_save_pretrained tokenizer OUTPUT_DIR = inr tt ->
  finetune_model [] = (inr tt, full_trace) /\ main = (0, full_trace).
Proof.
  run_cases; intros Hsave1 Hsave2; simplify_eq; try congruence;
    split; reflexivity.
Qed.

Lemma run_completes_witness :
  @finetune_model (spec_library (demo_hub 8)) [] = (inr tt, full_trace)
  /\ @main (spec_library (demo_hub 8)) = (0, full_trace).
Proof.
  apply (run_completes (spec_library (demo_hub 8))
           (mkTokenizer (Some "</s>") (Some "</s>"))
           (demo_trained (spec_library (demo_hub 8)))).
  - unfold trained_run. eexists _, _, _.
    repeat split; vm_compute; reflexivity.
  - reflexivity.
  - reflexivity.
Defined.

(** X13. Persistence is not atomic.  In a run that has trained, a
    failing adapter save ends the run before the tokenizer save is
    attempted; a failing tokenizer save ends it after the adapter save
    has returned.  Both ways the exception is the save's own, the
    completion message is not printed and the process exits with
    status 1. *)
Theorem save_failure (lib : Library) (tokenizer : Tokenizer)
    (trained : SFTTrainer) (e : exn) :
  trained_run lib tokenizer trained ->
  (Model_save_pretrained (trainer_model trained) OUTPUT_DIR = inl e ->
   finetune_model [] = (inl e, take 15 full_trace)
   /\ main = (1, take 15 full_trace)
   /\ CallTokenizerSave OUTPUT_DIR ∉ take 15 full_trace)
  /\ (Model_save_pretrained (trainer_model trained) OUTPUT_DIR = inr tt ->
      Tokenizer_save_pretrained tokenizer OUTPUT_DIR = inl e ->
      finetune_model [] = (inl e, take 16 full_trace)
      /\ main = (1, take 16 full_trace)
      /\ CallModelSave OUTPUT_DIR ∈ take 16 full_trace
      /\ completion_message ∉ take 16 full_trace).
Proof.
  run_cases; try congruence;
    split; intros Hsave1; try intros Hsave2; simplify_eq; try congruence;
    repeat split;
    first [ reflexivity
          | match goal with
            | |- (inl ?a, _) = (inl ?b, _) =>
                assert (a = b) as -> by congruence; reflexivity
            end
          | rewrite list_elem_of_In; simpl;
            first [tauto | intuition discriminate] ].
Qed.

Lemma save_failure_witness :
  (Model_save_pretrained (Library := full_disk_library (demo_hub 8))
     (trainer_model (demo_trained (full_disk_library (demo_hub 8))))
     OUTPUT_DIR = inl (LibraryError "no space left on device") ->
   @finetune_model (full_disk_library (demo_hub 8)) []
   = (inl (LibraryError "no space left on device"), take 15 full_trace)
   /\ @main (full_disk_library (demo_hub 8)) = (1, take 15 full_trace)
   /\ CallTokenizerSave OUTPUT_DIR ∉ take 15 full_trace)
  /\ (Model_save_pretrained (Library := full_disk_library (demo_hub 8))
        (trainer_model (demo_trained (full_disk_library (demo_hub 8))))
        OUTPUT_DIR = inr tt ->
      Tokenizer_save_pretrained (Library := full_disk_library (demo_hub 8))
        (mkTokenizer (Some "</s>") (Some "</s>")) OUTPUT_DIR
      = inl (LibraryError "no space left on device") ->
      @finetune_model (full_disk_library (demo_hub 8)) []
      = (inl (LibraryError "no space left on device"), take 16 full_trace)
      /\ @main (full_disk_library (demo_hub 8)) = (1, take 16 full_trace)
      /\ CallModelSave OUTPUT_DIR ∈ take 16 full_trace
      /\ completion_message ∉ take 16 full_trace).
Proof.
  apply (save_failure (full_disk_library (demo_hub 8))
           (mkTokenizer (Some "</s>") (Some "</s>"))
           (demo_trained (full_disk_library (demo_hub 8)))
           (LibraryError "no space left on device")).
  unfold trained_run. eexists _, _, _.
  repeat split; vm_compute; reflexivity.
Defined.

(** The run against a disk that fills up after the adapter save. *)
Example full_disk_main :
  @main (full_disk_library (demo_hub 8)) = (1, take 16 full_trace).
Proof. vm_compute. reflexivity. Qed.

(** X14. When the model loader raises, the run stops there with the
    loader's exception: the model settings, the tokenizer and the dataset
    are never touched, and the process exits with status 1. *)
Theorem model_failure_aborts (lib : Library) (e : exn) :
  AutoModelForCausalLM_from_pretrained MODEL_ID bnb_config "auto" true = inl e ->
  finetune_model []
  = (inl e, [ Printed "Loading Model: facebook/opt-125m...";
              CallModelFromPretrained MODEL_ID bnb_config ])
  /\ fst main = 1.
Proof.
  intros Hload. unfold_script. rewrite Hload. split; reflexivity.
Qed.

Lemma model_failure_aborts_witness :
  @finetune_model (spec_library empty_hub) []
  = (inl (LibraryError "unresolvable model identifier"),
     [ Printed "Loading Model: facebook/opt-125m...";
       CallModelFromPretrained MODEL_ID bnb_config ])
  /\ fst (@main (spec_library empty_hub)) = 1.
Proof.
  apply (model_failure_aborts (spec_library empty_hub)
           (LibraryError "unresolvable model identifier")).
  reflexivity.
Defined.

(** X15. When model acquisition has returned and the tokenizer loader
    raises, the run stops at that call with the loader's exception: the
    padding token is never assigned, the dataset never fetched, and the
    model that was built is dropped without being saved. *)
Theorem tokenizer_failure_aborts (lib : Library) (model : Model) (e : exn) :
  fst (model_acquisition []) = inr model ->
  AutoTokenizer_from_pretrained MODEL_ID true = inl e ->
  finetune_model [] = (inl e, take 8 full_trace)
  /\ fst main = 1
  /\ (SetPadToken ∉ take 8 full_trace)
  /\ existsb is_save (take 8 full_trace) = false.
Proof.
  assert (Hnot : SetPadToken ∉ take 8 full_trace).
  { rewrite list_elem_of_In. simpl. intuition discriminate. }
  revert Hnot. unfold_script.
  repeat next_call; intros Hnot Hm Ht; simplify_eq;
    repeat split; first [reflexivity | assumption].
Qed.

Lemma tokenizer_failure_aborts_witness :
  @finetune_model (spec_library model_only_hub) []
  = (inl (LibraryError "unresolvable tokenizer identifier"), take 8 full_trace)
  /\ fst (@main (spec_library model_only_hub)) = 1
  /\ (SetPadToken ∉ take 8 full_trace)
  /\ existsb is_save (take 8 full_trace) = false.
Proof.
  apply (tokenizer_failure_aborts (spec_library model_only_hub)
           (match fst (@model_acquisition (spec_library model_only_hub) []) with
            | inr m => m
            | inl _ => mkModel [] (mkModelConfig true None) false
            end)
           (LibraryError "unresolvable tokenizer identifier"));
    vm_compute; reflexivity.
Defined.

(** X16. Whenever model acquisition returns a model, that model is what
    adapter injection returned on the prepared model, and preparation
    was called on the loaded parameters with key/value caching off and
    the tensor-parallelism hint at 1, whatever configuration the loader
    had returned. *)
Theorem model_acquisition_returns (lib : Library) (model : Model) :
  fst (model_acquisition []) = inr model ->
  exists loaded prepared,
    AutoModelForCausalLM_from_pretrained MODEL_ID bnb_config "auto" true
    = inr loaded
    /\ prepare_model_for_kbit_training
         (mkModel (parameters loaded) (mkModelConfig false (Some 1))
                  (kbit_prepared loaded)) = inr prepared
    /\ get_peft_model prepared peft_config = inr model.
Proof.
  unfold_script. repeat next_call; intros Hm; simplify_eq.
  eexists _, _. repeat split; eassumption.
Qed.

Lemma model_acquisition_returns_witness :
  exists loaded prepared,
    @AutoModelForCausalLM_from_pretrained (spec_library offline_hub)
      MODEL_ID bnb_config "auto" true = inr loaded
    /\ @prepare_model_for_kbit_training (spec_library offline_hub)
         (mkModel (parameters loaded) (mkModelConfig false (Some 1))
                  (kbit_prepared loaded)) = inr prepared
    /\ @get_peft_model (spec_library offline_hub) prepared peft_config
       = inr (mkModel
                [ mkParam "decoder.layers.0.self_attn.q_proj.weight"
                          false true false;
                  mkParam "decoder.layers.0.self_attn.q_proj.weight.lora_A"
                          true false true;
                  mkParam "decoder.layers.0.self_attn.q_proj.weight.lora_B"
                          true false true ]
                (mkModelConfig false (Some 1)) true).
Proof.
  apply (model_acquisition_returns (spec_library offline_hub)).
  vm_compute. reflexivity.
Defined.

(** X17. When every call before it has returned and the training loop
    raises, the run ends with the loop's own exception right after the
    call: nothing is saved, the completion message is not printed, and
    the process exits with status 1. *)
Theorem training_failure_aborts (lib : Library) (model : Model)
    (tokenizer : Tokenizer) (dataset : Dataset) (trainer : SFTTrainer)
    (e : exn) :
  fst (model_acquisition []) = inr model ->
  fst (tokenizer_acquisition []) = inr tokenizer ->
  fst (dataset_acquisition []) = inr dataset ->
  SFTTrainer_init model dataset peft_config training_arguments
                  formatting_prompts_func = inr trainer ->
  SFTTrainer_train trainer = inl e ->
  finetune_model [] = (inl e, take 14 full_trace)
  /\ fst main = 1
  /\ existsb is_save (take 14 full_trace) = false
  /\ last (take 14 full_trace) = Some CallTrain.
Proof.
  unfold_script.
  repeat next_call; intros Hm Ht Hd Hinit Htrain; simplify_eq;
    try congruence;
    repeat split;
    first [ reflexivity
          | match goal with
            | |- (inl ?a, _) = (inl ?b, _) =>
                assert (a = b) as -> by congruence; reflexivity
            end ].
Qed.

Lemma training_failure_aborts_witness :
  @finetune_model (out_of_memory_library (demo_hub 8)) []
  = (inl (LibraryError "CUDA out of memory"), take 14 full_trace)
  /\ fst (@main (out_of_memory_library (demo_hub 8))) = 1
  /\ existsb is_save (take 14 full_trace) = false
  /\ last (take 14 full_trace) = Some CallTrain.
Proof.
  apply (training_failure_aborts (out_of_memory_library (demo_hub 8))
           (trainer_model (demo_trained (out_of_memory_library (demo_hub 8))))
           (mkTokenizer (Some "</s>") (Some "</s>"))
           (repeat say_hi_row 8)
           (mkSFTTrainer
              (trainer_model (demo_trained (out_of_memory_library (demo_hub 8))))
              (repeat say_hi_row 8) peft_config training_arguments
              formatting_prompts_func 0)
           (LibraryError "CUDA out of memory"));
    vm_compute; reflexivity.
Defined.
